(** * Verification of the user API of [server.js]

    A shallow embedding of the Express application in [src/server.js]:
    the Basic-authentication middleware [authenticateUser], the company
    identifier generator [generateCompanyId] and the route handlers for
    [/api/register], [/api/login], [/api/profile] (GET and PUT) and
    [/api/logout], executed against a model of the [users] table.

    The Node runtime and the libraries the file calls (base64 decoding,
    bcryptjs, the e-mail syntax check of express-validator, the MySQL
    server's own reasons to refuse a statement and what it does with a
    statement whose text is not the one the handler meant to write) are
    not part of the program: they are gathered in a [Platform] record over
    which every definition and theorem is parametric. *)

From Stdlib Require Import ZArith Lia Ascii.
From stdpp Require Import base tactics option list strings gmap pretty.

Open Scope string_scope.
Open Scope list_scope.
Open Scope Z_scope.

(** ** JavaScript values *)

(** The scalar values that reach the handlers: members of a parsed JSON
    body and cells of a result row.  DATETIME cells are held as epoch
    milliseconds.  Nested arrays and objects are not modelled. *)
Inductive value : Type :=
  | VUndefined
  | VNull
  | VBool (b : bool)
  | VNum (n : Z)
  | VStr (s : string).

#[global] Instance value_eq_dec : EqDecision value.
Proof. solve_decision. Defined.

(** [!v] is [negb (truthy v)]. *)
Definition truthy (v : value) : bool :=
  match v with
  | VUndefined | VNull => false
  | VBool b => b
  | VNum n => negb (n =? 0)
  | VStr s => negb (String.eqb s "")
  end.

(** [v !== undefined] *)
Definition defined (v : value) : bool :=
  match v with VUndefined => false | _ => true end.

(** ** JavaScript objects whose key order is observable

    [req.body] and the [updates] object of the update handler are
    enumerated with [Object.keys], so they are kept as association lists in
    insertion order.  A body lists its keys in the order [Object.keys]
    gives them.  A property read that misses yields [undefined]. *)
Module Obj.

Definition t (A : Type) : Type := list (string * A).

Fixpoint get {A} (o : t A) (k : string) : option A :=
  match o with
  | [] => None
  | (k', a) :: o' => if String.eqb k' k then Some a else get o' k
  end.

(** [o[k] = a]: an existing key keeps its position, a new key is added
    at the end. *)
Fixpoint set {A} (o : t A) (k : string) (a : A) : t A :=
  match o with
  | [] => [(k, a)]
  | (k', a') :: o' =>
      if String.eqb k' k then (k', a) :: o' else (k', a') :: set o' k a
  end.

(** The assignment [o[k] = a] on an ordinary object, for a primitive [a]:
    the key ["__proto__"] reaches the prototype setter, which ignores a
    primitive and creates no property; any other key is set. *)
Definition put {A} (o : t A) (k : string) (a : A) : t A :=
  if String.eqb k "__proto__" then o else set o k a.

Definition keys {A} (o : t A) : list string := map fst o.

Definition has {A} (o : t A) (k : string) : bool :=
  match get o k with Some _ => true | None => false end.

End Obj.

(** [req.body[k]] *)
Definition prop (body : Obj.t value) (k : string) : value :=
  default VUndefined (Obj.get body k).

(** ** Strings *)

(** [s.startsWith(p)] *)
Fixpoint startsWith (p s : string) : bool :=
  match p, s with
  | EmptyString, _ => true
  | String a p', String b s' => if Ascii.eqb a b then startsWith p' s' else false
  | String _ _, EmptyString => false
  end.

(** [s.split(c)] for a one-character separator: never empty, the pieces
    between consecutive separators, in order. *)
Fixpoint split (c : ascii) (s : string) : list string :=
  match s with
  | EmptyString => [EmptyString]
  | String a s' =>
      if Ascii.eqb a c then EmptyString :: split c s'
      else match split c s' with
           | piece :: rest => String a piece :: rest
           | [] => [String a EmptyString]
           end
  end.

(** [s.substring(from, to)] for [from <= to]. *)
Definition substring (from to : nat) (s : string) : string :=
  String.substring from (to - from) s.

(** [pieces.join(sep)] *)
Fixpoint join (sep : string) (pieces : list string) : string :=
  match pieces with
  | [] => ""
  | [p] => p
  | p :: rest => p +:+ sep +:+ join sep rest
  end.

(** The string in lower case (ASCII letters). *)
Definition lower_char (a : ascii) : ascii :=
  let n := N_of_ascii a in
  if ((65 <=? n) && (n <=? 90))%N then ascii_of_N (n + 32) else a.

Fixpoint lower (s : string) : string :=
  match s with
  | EmptyString => EmptyString
  | String a s' => String (lower_char a) (lower s')
  end.

(** Truthiness of a possibly missing array element that is a string. *)
Definition nonempty (s : option string) : bool :=
  match s with
  | Some s' => negb (String.eqb s' "")
  | None => false
  end.

(** Text before the first occurrence of [c], and text after it (if any). *)
Fixpoint before_first (c : ascii) (s : string) : string :=
  match s with
  | EmptyString => EmptyString
  | String a s' => if Ascii.eqb a c then EmptyString else String a (before_first c s')
  end.

Fixpoint after_first (c : ascii) (s : string) : option string :=
  match s with
  | EmptyString => None
  | String a s' => if Ascii.eqb a c then Some s' else after_first c s'
  end.

(** ** The [users] table *)

(** A result row, and a stored row: column name to cell. *)
Abbreviation Row := (gmap string value).

(** [row.k]: a column the row does not have reads as [undefined]. *)
Definition cell (r : Row) (k : string) : value := default VUndefined (r !! k).

(** The table in insertion order, with the AUTO_INCREMENT counter of [id]. *)
Record Store : Type := mkStore {
  rows : list Row;
  next_id : Z
}.

(** Right-hand sides the program writes into its statements: the
    placeholder ['?'] and the literal ['NOW()']. *)
Inductive rhs : Type := Placeholder | NowCall.

Definition rhs_text (e : rhs) : string :=
  match e with Placeholder => "?" | NowCall => "NOW()" end.

(** The statements handed to [pool.execute] that change the table: the
    column/right-hand-side pairs in textual order and the array of bound
    values.  The text of an [Update] lists the pairs after [SET] and ends in
    [WHERE id = ?]. *)
Inductive statement : Type :=
  | Insert (sets : Obj.t rhs) (params : list value)
  | Update (sets : Obj.t rhs) (params : list value).

(** What a handler can catch. *)
Inductive exn : Type :=
  | UndefinedBindParameter   (* mysql2: bind parameters must not contain undefined *)
  | IllegalArguments         (* bcryptjs: an argument is not a string *)
  | InvalidArgType           (* Buffer.from(undefined, ...) *)
  | MysqlError.              (* the server answered the statement with an error *)

(** ** What the program takes from its platform *)
Record Platform : Type := mkPlatform {
  (** [Buffer.from(s, 'base64').toString('ascii')] *)
  base64_ascii : string -> string;
  (** [bcrypt.compare(plain, digest)] on two strings *)
  bcrypt_compare : string -> string -> bool;
  (** [bcrypt.hash(plain, 10)], by the salt drawn *)
  bcrypt_hash : string -> string -> string;
  (** express-validator's [isEmail] *)
  isEmail : string -> bool;
  (** the collation of the [email] column *)
  collate : string -> string -> bool;
  (** the server's own reasons to answer a statement with an error
      (constraints, column types, unknown columns) *)
  refuses : Store -> statement -> bool;
  (** what the server does, at a given time, with an [UPDATE] the model
      does not read itself (a target that is not a plain column name, or
      bound values that differ in number from the placeholders): the rows
      afterwards, or [None] for an error *)
  foreign : Store -> statement -> Z -> option (list Row);
  (** [String(n)] for a number outside the safe integers *)
  number_text : Z -> string
}.

(** What the surroundings supply to one request. *)
Record Env : Type := mkEnv {
  db_now : Z;          (* NOW() *)
  date_now : Z;        (* Date.now() *)
  random36 : string;   (* Math.random().toString(36) *)
  salt : string        (* the salt bcrypt draws *)
}.

(** ** Responses *)
Record response : Type := mkResponse {
  code : Z;                          (* HTTP status *)
  status : bool;                     (* the body's status field *)
  message : string;
  user : option Row;                 (* data.user *)
  errors : list (string * string);   (* validation errors: field, message *)
  error : option exn                 (* error: error.message *)
}.

Definition reply (c : Z) (ok : bool) (msg : string) : response :=
  {| code := c; status := ok; message := msg; user := None; errors := []; error := None |}.

Definition reply_user (c : Z) (msg : string) (u : Row) : response :=
  {| code := c; status := true; message := msg; user := Some u; errors := []; error := None |}.

Definition reply_invalid (errs : list (string * string)) : response :=
  {| code := 400; status := false; message := "Validation errors"; user := None;
     errors := errs; error := None |}.

Definition reply_internal (e : exn) : response :=
  {| code := 500; status := false; message := "Internal server error"; user := None;
     errors := []; error := Some e |}.

(** ** Computations that read and write the table and may throw *)
Inductive result (A : Type) : Type :=
  | Returned (a : A) (st : Store)
  | Threw (e : exn) (st : Store).
Arguments Returned {A} a st.
Arguments Threw {A} e st.

Definition M (A : Type) : Type := Store -> result A.

Definition ret {A} (a : A) : M A := fun st => Returned a st.

Definition throw {A} (e : exn) : M A := fun st => Threw e st.

Definition bind {A B} (m : M A) (k : A -> M B) : M B :=
  fun st => match m st with
            | Returned a st' => k a st'
            | Threw e st' => Threw e st'
            end.

Notation "'let*' x ':=' m 'in' k" := (bind m (fun x => k))
  (at level 10, x name, m at level 100, k at level 200).

(** [try { m } catch (error) { handler(error) }] around a whole route. *)
Definition try_catch (m : M response) (handler : exn -> response) (st : Store)
  : response * Store :=
  match m st with
  | Returned r st' => (r, st')
  | Threw e st' => (handler e, st')
  end.

(** ** express-validator *)

(** One chain [body(field).<validator>().withMessage(msg)]; with
    [.optional()] the chain is skipped when the field is [undefined]. *)
Definition check (optional : bool) (body : Obj.t value) (field : string)
    (validator : value -> bool) (msg : string) : list (string * string) :=
  let v := prop body field in
  if optional && negb (defined v) then []
  else if validator v then [] else [(field, msg)].

Definition subscriptions : list string := ["Basic"; "Silver"; "Premium"; "Enterprise"].
Definition types : list string := ["company"; "employee"; "admin"].

(** [planMap[s]] *)
Definition planMap (s : string) : option Z :=
  if String.eqb s "Basic" then Some 0
  else if String.eqb s "Silver" then Some 1
  else if String.eqb s "Premium" then Some 2
  else if String.eqb s "Enterprise" then Some 3
  else None.

(** ** The model of [pool.execute] *)

(** mysql2 sends a boolean as the integer 1 or 0. *)
Definition to_cell (v : value) : value :=
  match v with
  | VBool true => VNum 1
  | VBool false => VNum 0
  | _ => v
  end.

(** Placeholders take the bound values from left to right; [NOW()] is the
    server's clock.  Returns the assignments with the values that were not
    consumed, or [None] when the values run out. *)
Fixpoint bind_params (sets : Obj.t rhs) (params : list value) (now : Z)
  : option (list (string * value) * list value) :=
  match sets with
  | [] => Some ([], params)
  | (col, NowCall) :: sets' =>
      match bind_params sets' params now with
      | Some (asg, rest) => Some ((col, VNum now) :: asg, rest)
      | None => None
      end
  | (col, Placeholder) :: sets' =>
      match params with
      | [] => None
      | v :: params' =>
          match bind_params sets' params' now with
          | Some (asg, rest) => Some ((col, to_cell v) :: asg, rest)
          | None => None
          end
      end
  end.

(** [SET c1 = v1, c2 = v2, ...] on one row, left to right, for targets
    that are column names.  The server matches a column name whatever its
    case; the columns of [users] are the lower-case names the program reads
    in a row and lists in its [INSERT]. *)
Definition assign (r : Row) (asg : list (string * value)) : Row :=
  fold_left (fun acc cv => <[lower cv.1 := cv.2]> acc) asg r.

(** A key that the server reads as a plain column name when it is pasted
    into a statement: letters, digits and underscores, the first one not a
    digit.  (A reserved word or an unknown column is among the server's
    reasons to refuse the statement.) *)
Definition letter_char (a : ascii) : bool :=
  let n := N_of_ascii a in
  (((65 <=? n) && (n <=? 90)) || ((97 <=? n) && (n <=? 122)) || (n =? 95))%N.

Definition identifier_char (a : ascii) : bool :=
  let n := N_of_ascii a in
  letter_char a || ((48 <=? n) && (n <=? 57))%N.

Definition sql_identifier (k : string) : bool :=
  match k with
  | EmptyString => false
  | String a k' =>
      letter_char a && forallb identifier_char (String.list_ascii_of_string k')
  end.

(** The number of placeholders of a column list. *)
Definition is_placeholder (kv : string * rhs) : bool :=
  match kv.2 with Placeholder => true | NowCall => false end.

Definition holes (sets : Obj.t rhs) : nat := length (List.filter is_placeholder sets).

(** An [UPDATE ... WHERE id = ?] the model reads itself: every target is a
    plain column name, and the bound values are as many as the placeholders
    of the text, those of the [SET] list and the one of the [WHERE]. *)
Definition plain (sets : Obj.t rhs) (params : list value) : bool :=
  forallb sql_identifier (Obj.keys sets) && (length params =? S (holes sets))%nat.

Section Program.

Variable P : Platform.

(** The server's [=]: never true on NULL; numbers by value, strings by
    the column's collation.  Comparisons across types are not modelled. *)
Definition sql_eq (a b : value) : bool :=
  match a, b with
  | VNum x, VNum y => x =? y
  | VStr s, VStr t => collate P s t
  | _, _ => false
  end.

(** [pool.execute('SELECT * FROM users WHERE ...', params)]: mysql2 throws
    on an [undefined] value, otherwise the rows that satisfy the condition,
    in table order.  Failures of the connection are not modelled: a read
    with defined values returns. *)
Definition select (params : list value) (where_ : Row -> bool) : M (list Row) :=
  fun st =>
    if existsb (fun v => negb (defined v)) params then Threw UndefinedBindParameter st
    else Returned (List.filter where_ (rows st)) st.

(** [SELECT * FROM users WHERE email = ?] *)
Definition select_by_email (email : value) : M (list Row) :=
  select [email] (fun r => sql_eq (cell r "email") email).

(** [SELECT * FROM users WHERE email = ? AND is_active = 1] *)
Definition select_active_by_email (email : value) : M (list Row) :=
  select [email] (fun r => sql_eq (cell r "email") email
                           && sql_eq (cell r "is_active") (VNum 1)).

(** [SELECT * FROM users WHERE id = ?] *)
Definition select_by_id (id : value) : M (list Row) :=
  select [id] (fun r => sql_eq (cell r "id") id).

(** The row an [INSERT] creates: the new [id], the column default of
    [last_login], then the statement's columns. *)
Definition inserted_row (id : Z) (asg : list (string * value)) : Row :=
  assign (<["last_login" := VNull]> {["id" := VNum id]}) asg.

(** [pool.execute(statement)] for [INSERT] and [UPDATE].  mysql2 throws on
    an [undefined] value.  The [INSERT] of the program has fixed columns and
    as many values as placeholders; the server creates the row unless it
    refuses the statement, and the call returns the [insertId].  The keys
    of an [UPDATE] are pasted into its text as they are: one that is
    [plain] is carried out on the rows the [WHERE] selects, the values
    stored as they were bound, unless the server refuses it; what happens
    with any other is the platform's [foreign].  An [UPDATE] returns 0.
    Failures of the connection are not modelled. *)
Definition execute (now : Z) (s : statement) : M Z :=
  fun st =>
    match s with
    | Insert sets params =>
        if existsb (fun v => negb (defined v)) params then Threw UndefinedBindParameter st
        else match bind_params sets params now with
             | Some (asg, []) =>
                 if refuses P st s then Threw MysqlError st
                 else Returned (next_id st)
                        {| rows := rows st ++ [inserted_row (next_id st) asg];
                           next_id := next_id st + 1 |}
             | _ => Threw MysqlError st
             end
    | Update sets params =>
        if existsb (fun v => negb (defined v)) params then Threw UndefinedBindParameter st
        else if plain sets params then
          match bind_params sets params now with
          | Some (asg, [id]) =>
              if refuses P st s then Threw MysqlError st
              else Returned 0
                     {| rows := map (fun r => if sql_eq (cell r "id") (to_cell id)
                                              then assign r asg else r) (rows st);
                        next_id := next_id st |}
          | _ => Threw MysqlError st
          end
        else
          match foreign P st s now with
          | Some rows' => Returned 0 {| rows := rows'; next_id := next_id st |}
          | None => Threw MysqlError st
          end
    end.

(** [bcrypt.compare(s, hash)]: throws unless both arguments are strings. *)
Definition compare (s hash : value) : M bool :=
  match s, hash with
  | VStr s', VStr h => ret (bcrypt_compare P s' h)
  | _, _ => throw IllegalArguments
  end.

(** [bcrypt.hash(s, saltRounds)]: throws unless [s] is a string. *)
Definition hash (env : Env) (s : value) : M string :=
  match s with
  | VStr s' => ret (bcrypt_hash P (salt env) s')
  | _ => throw IllegalArguments
  end.

(** ** The validators

    The string a validator sees for a field value.  A number within the
    safe integers is printed in decimal; beyond them the text is the
    platform's. *)
Definition validator_string (v : value) : string :=
  match v with
  | VUndefined | VNull => ""
  | VBool true => "true"
  | VBool false => "false"
  | VNum n => if Z.abs n <=? 9007199254740991 then pretty n else number_text P n
  | VStr s => s
  end.

Definition notEmpty (v : value) : bool :=
  negb (String.eqb (validator_string v) "").

Definition isLength_min (n : nat) (v : value) : bool :=
  (n <=? String.length (validator_string v))%nat.

Definition isIn (allowed : list string) (v : value) : bool :=
  existsb (String.eqb (validator_string v)) allowed.

(** ** [generateCompanyId] *)
Definition generateCompanyId (env : Env) : string :=
  let timestamp := date_now env in
  let randomString := substring 2 8 (random36 env) in
  "CMP-" +:+ pretty timestamp +:+ randomString.

(** ** [authenticateUser] *)

Inductive gate : Type :=
  | Rejected (r : response)
  | Passed (user : Row).

(** The [try] block of the middleware, entered once the header is known to
    start with ["Basic "]. *)
Definition authenticate (authHeader : string) : M gate :=
  match split " " authHeader !! 1%nat with
  | None => throw InvalidArgType
  | Some base64Credentials =>
      let credentials := base64_ascii P base64Credentials in
      let pieces := split ":" credentials in
      let email := pieces !! 0%nat in
      let password := pieces !! 1%nat in
      if negb (nonempty email) || negb (nonempty password) then
        ret (Rejected (reply 401 false "Email and password required"))
      else
        let* users := select_active_by_email (VStr (default "" email)) in
        match users with
        | [] => ret (Rejected (reply 401 false "Invalid credentials"))
        | user :: _ =>
            if negb (truthy (cell user "is_login_enable")) then
              ret (Rejected (reply 403 false "Login is disabled for this account"))
            else
              let* isPasswordValid :=
                compare (VStr (default "" password)) (cell user "password") in
              if negb isPasswordValid then
                ret (Rejected (reply 401 false "Invalid credentials"))
              else ret (Passed user)
        end
  end.

Definition authenticateUser (authHeader : option string)
    (next : Row -> Store -> response * Store) (st : Store) : response * Store :=
  match authHeader with
  | None => (reply 401 false "Basic authentication required", st)
  | Some h =>
      if String.eqb h "" || negb (startsWith "Basic " h) then
        (reply 401 false "Basic authentication required", st)
      else
        match authenticate h st with
        | Returned (Passed u) st' => next u st'
        | Returned (Rejected r) st' => (r, st')
        | Threw _ st' => (reply 403 false "Authentication failed", st')
        end
  end.

(** [const userData = { ...row }; delete userData.password;] where [row]
    is the first element of a result set ([undefined] spreads to the
    empty object). *)
Definition strip_password (row : option Row) : Row :=
  delete "password" (default ∅ row).

(** ** [POST /api/register] *)

Definition validate_register (body : Obj.t value) : list (string * string) :=
  check false body "first_name" notEmpty "First name is required"
  ++ check false body "last_name" notEmpty "Last name is required"
  ++ check false body "email" (fun v => isEmail P (validator_string v))
       "Valid email is required"
  ++ check false body "password" (isLength_min 6)
       "Password must be at least 6 characters"
  ++ check false body "type" (isIn types)
       "Type must be company, employee, or admin".

Definition insert_columns : Obj.t rhs :=
  [("first_name", Placeholder); ("last_name", Placeholder); ("email", Placeholder);
   ("password", Placeholder); ("type", Placeholder); ("company_id", Placeholder);
   ("subscription", Placeholder); ("lang", Placeholder); ("plan", Placeholder);
   ("avatar", Placeholder); ("created_by", Placeholder); ("is_active", Placeholder);
   ("is_login_enable", Placeholder); ("dark_mode", Placeholder);
   ("messenger_color", Placeholder); ("is_disable", Placeholder);
   ("created_at", NowCall); ("updated_at", NowCall)].

(** A destructured field with a default: [{ k = d } = req.body]. *)
Definition prop_or (body : Obj.t value) (k : string) (d : value) : value :=
  match prop body k with VUndefined => d | v => v end.

Definition register (env : Env) (body : Obj.t value) : M response :=
  let errs := validate_register body in
  match errs with
  | _ :: _ => ret (reply_invalid errs)
  | [] =>
      let first_name := prop body "first_name" in
      let last_name := prop body "last_name" in
      let email := prop body "email" in
      let password := prop body "password" in
      let type := prop body "type" in
      let lang := prop_or body "lang" (VStr "en") in
      let avatar := prop_or body "avatar" (VStr "") in
      let subscription := VStr "Basic" in
      let* existingUsers := select_by_email email in
      match existingUsers with
      | _ :: _ => ret (reply 400 false "Email already registered")
      | [] =>
          let* hashedPassword := hash env password in
          let companyId :=
            if bool_decide (type = VStr "company")
            then VStr (generateCompanyId env) else VNull in
          let* insertId :=
            execute (db_now env)
              (Insert insert_columns
                 [first_name; last_name; email; VStr hashedPassword; type; companyId;
                  subscription; lang; VNum 0; avatar; VNum 0; VNum 1; VNum 1; VNum 0;
                  VStr "#2180f3"; VNum 1]) in
          let* newUser := select_by_id (VNum insertId) in
          ret (reply_user 201 "User registered successfully"
                 (strip_password (head newUser)))
      end
  end.

Definition post_register (env : Env) (body : Obj.t value) : Store -> response * Store :=
  try_catch (register env body) reply_internal.

(** ** [POST /api/login] *)

Definition validate_login (body : Obj.t value) : list (string * string) :=
  check false body "email" (fun v => isEmail P (validator_string v))
    "Valid email is required"
  ++ check false body "password" notEmpty "Password is required".

Definition login (env : Env) (body : Obj.t value) : M response :=
  let errs := validate_login body in
  match errs with
  | _ :: _ => ret (reply_invalid errs)
  | [] =>
      let email := prop body "email" in
      let password := prop body "password" in
      let* users := select_by_email email in
      match users with
      | [] => ret (reply 401 false "Invalid email or password")
      | user :: _ =>
          if negb (truthy (cell user "is_active")) then
            ret (reply 403 false "Account is not active")
          else if negb (truthy (cell user "is_login_enable")) then
            ret (reply 403 false "Login is disabled for this account")
          else
            let* isPasswordValid := compare password (cell user "password") in
            if negb isPasswordValid then
              ret (reply 401 false "Invalid email or password")
            else
              let* _ := execute (db_now env)
                          (Update [("last_login", NowCall)] [cell user "id"]) in
              ret (reply_user 200 "Login successful" (strip_password (Some user)))
      end
  end.

Definition post_login (env : Env) (body : Obj.t value) : Store -> response * Store :=
  try_catch (login env body) reply_internal.

(** ** [GET /api/profile] *)
Definition get_profile (authHeader : option string) : Store -> response * Store :=
  authenticateUser authHeader
    (fun user st =>
       (reply_user 200 "Profile retrieved successfully" (strip_password (Some user)), st)).

(** ** [PUT /api/profile] *)

Definition validate_update (body : Obj.t value) : list (string * string) :=
  check true body "first_name" notEmpty "First name cannot be empty"
  ++ check true body "last_name" notEmpty "Last name cannot be empty"
  ++ check true body "subscription" (isIn subscriptions) "Invalid subscription type".

(** One turn of [Object.keys(req.body).forEach(key => ...)] on the pair
    ([updates], [values]). *)
Definition collect (body : Obj.t value) (acc : Obj.t rhs * list value) (key : string)
  : Obj.t rhs * list value :=
  if defined (prop body key) && negb (String.eqb key "password") then
    (Obj.put acc.1 key Placeholder, (acc.2 ++ [prop body key])%list)
  else acc.

Definition collect_all (body : Obj.t value) : Obj.t rhs * list value :=
  fold_left (collect body) (Obj.keys body) ([], []).

(** [planMap[req.body.subscription]] *)
Definition plan_of (subscription : value) : value :=
  match subscription with
  | VStr s => match planMap s with Some p => VNum p | None => VUndefined end
  | _ => VUndefined
  end.

(** What follows the loop once [values] is known not to be empty: the
    [plan] entry, the [updated_at] entry and the user id. *)
Definition finish_update (body : Obj.t value) (userId : value)
    (acc : Obj.t rhs * list value) : Obj.t rhs * list value :=
  let acc1 :=
    if truthy (prop body "subscription") then
      (Obj.set acc.1 "plan" Placeholder,
       (acc.2 ++ [plan_of (prop body "subscription")])%list)
    else acc in
  (Obj.set acc1.1 "updated_at" NowCall, (acc1.2 ++ [userId])%list).

(** The text of the query. *)
Definition update_query (updates : Obj.t rhs) : string :=
  "UPDATE users SET "
  +:+ join ", " (map (fun kv => kv.1 +:+ " = " +:+ rhs_text kv.2) updates)
  +:+ " WHERE id = ?".

Definition update (env : Env) (user : Row) (body : Obj.t value) : M response :=
  let errs := validate_update body in
  match errs with
  | _ :: _ => ret (reply_invalid errs)
  | [] =>
      let userId := cell user "id" in
      let acc := collect_all body in
      match acc.2 with
      | [] => ret (reply 400 false "No valid fields to update")
      | _ :: _ =>
          let stmt := finish_update body userId acc in
          let* _ := execute (db_now env) (Update stmt.1 stmt.2) in
          let* updatedUser := select_by_id userId in
          ret (reply_user 200 "Profile updated successfully"
                 (strip_password (head updatedUser)))
      end
  end.

Definition put_profile (env : Env) (authHeader : option string) (body : Obj.t value)
  : Store -> response * Store :=
  authenticateUser authHeader
    (fun user => try_catch (update env user body) reply_internal).

(** ** [POST /api/logout] *)
Definition post_logout (authHeader : option string) : Store -> response * Store :=
  authenticateUser authHeader
    (fun _ st => (reply 200 true "Logged out successfully", st)).

(** ** The routes that answer with a user *)
Inductive route : Type :=
  | PostRegister | PostLogin | GetProfile | PutProfile | PostLogout.

Record request : Type := mkRequest {
  authorization : option string;   (* req.headers['authorization'] *)
  body : Obj.t value               (* req.body *)
}.

Definition serve (env : Env) (r : route) (req : request) : Store -> response * Store :=
  match r with
  | PostRegister => post_register env (body req)
  | PostLogin => post_login env (body req)
  | GetProfile => get_profile (authorization req)
  | PutProfile => put_profile env (authorization req) (body req)
  | PostLogout => post_logout (authorization req)
  end.

End Program.

(** ** Vocabulary of the properties *)

(** [s] without its first [n] characters. *)
Fixpoint string_drop (n : nat) (s : string) : string :=
  match n, s with
  | O, _ => s
  | S n', String _ s' => string_drop n' s'
  | S _, EmptyString => EmptyString
  end.

(** The base64 payload of a header that starts with ["Basic "]: the text
    after the scheme, up to the next space. *)
Definition payload (authHeader : string) : string :=
  before_first " " (string_drop 6 authHeader).

(** The credential string the header carries. *)
Definition presented (P : Platform) (authHeader : string) : string :=
  base64_ascii P (payload authHeader).

(** A header that is absent, is not of the Basic scheme, or whose decoded
    payload is not an e-mail, a colon and a password, both non-empty.  A
    payload with no base64 digit decodes to the empty string and is
    malformed in this sense. *)
Definition malformed (P : Platform) (authHeader : option string) : Prop :=
  match authHeader with
  | None => True
  | Some h =>
      startsWith "Basic " h = false
      \/ before_first ":" (presented P h) = ""
      \/ after_first ":" (presented P h) = None
      \/ after_first ":" (presented P h) = Some ""
  end.

(** The routes behind [authenticateUser]. *)
Definition protected (r : route) : bool :=
  match r with
  | GetProfile | PutProfile | PostLogout => true
  | PostRegister | PostLogin => false
  end.

(** A response whose user object, if any, has no [password] key. *)
Definition no_password (r : response) : Prop :=
  forall u, user r = Some u -> u !! "password" = None.

(** The guard of the loop over the keys of the body. *)
Definition updatable (body : Obj.t value) (key : string) : bool :=
  defined (prop body key) && negb (String.eqb key "password").

(** The body keys that pass the guard, in order, and the column/value pairs
    the handler means to write: those keys with their values, then [plan]
    when the body's [subscription] is truthy. *)
Definition sent_keys (body : Obj.t value) : list string :=
  List.filter (updatable body) (Obj.keys body).

Definition sent_pairs (body : Obj.t value) : list (string * value) :=
  (map (fun k => (k, prop body k)) (sent_keys body)
   ++ (if truthy (prop body "subscription")
       then [("plan", plan_of (prop body "subscription"))] else []))%list.


Definition not_proto (k : string) : bool := negb (String.eqb k "__proto__").

(** The statement of the update handler has as many placeholders as bound
    values: those of its columns and the one of [WHERE id = ?]. *)
Definition balanced (body : Obj.t value) : bool :=
  let stmt := finish_update body VNull (collect_all body) in
  (length stmt.2 =? S (holes stmt.1))%nat.



(** A header that is a Basic credential in the strict sense: the scheme, one
    space, and a base64 text of the standard alphabet, whole groups of four
    with padding only at the end, and nothing else. *)
Definition base64_char (a : ascii) : bool :=
  let n := N_of_ascii a in
  (((65 <=? n) && (n <=? 90)) || ((97 <=? n) && (n <=? 122))
   || ((48 <=? n) && (n <=? 57)) || (n =? 43) || (n =? 47))%N.

Fixpoint base64_text (s : list ascii) : bool :=
  match s with
  | [] => true
  | [a; b; c; d] =>
      base64_char a && base64_char b
      && ((base64_char c && (base64_char d || Ascii.eqb d "="))
          || (Ascii.eqb c "=" && Ascii.eqb d "="))
  | a :: b :: c :: d :: rest =>
      base64_char a && base64_char b && base64_char c && base64_char d
      && base64_text rest
  | _ => false
  end.

Definition basic_credential (authHeader : string) : bool :=
  startsWith "Basic " authHeader
  && negb (String.eqb (string_drop 6 authHeader) "")
  && base64_text (String.list_ascii_of_string (string_drop 6 authHeader)).

(** The fields of the body that registration reads. *)
Definition client_fields : list string :=
  ["first_name"; "last_name"; "email"; "password"; "type"; "lang"; "avatar"].


(** [o[k] = '?'] for each key of a list in turn. *)
Definition set_placeholders (ks : list string) (o : Obj.t rhs) : Obj.t rhs :=
  fold_left (fun acc k => Obj.set acc k Placeholder) ks o.

(** The rows the [WHERE id = ?] of a statement selects. *)
Definition selected (P : Platform) (id : value) (r : Row) : bool :=
  sql_eq P (cell r "id") (to_cell id).

(** ** Vocabulary of the further properties *)

(** The assignments of the [INSERT] of the register route once bound: the
    sixteen values of the array, as the server receives them, and the two
    timestamps. *)
Definition registration_cells (P : Platform) (env : Env) (body : Obj.t value)
    (password : string) : list (string * value) :=
  [("first_name", to_cell (prop body "first_name"));
   ("last_name", to_cell (prop body "last_name"));
   ("email", to_cell (prop body "email"));
   ("password", VStr (bcrypt_hash P (salt env) password));
   ("type", to_cell (prop body "type"));
   ("company_id",
    to_cell (if bool_decide (prop body "type" = VStr "company")
             then VStr (generateCompanyId env) else VNull));
   ("subscription", VStr "Basic");
   ("lang", to_cell (prop_or body "lang" (VStr "en")));
   ("plan", VNum 0);
   ("avatar", to_cell (prop_or body "avatar" (VStr "")));
   ("created_by", VNum 0);
   ("is_active", VNum 1);
   ("is_login_enable", VNum 1);
   ("dark_mode", VNum 0);
   ("messenger_color", VStr "#2180f3");
   ("is_disable", VNum 1);
   ("created_at", VNum (db_now env));
   ("updated_at", VNum (db_now env))].

(** Every stored id is a number below the AUTO_INCREMENT counter. *)
Definition fresh_ids (st : Store) : Prop :=
  forall r, r ∈ rows st -> exists i, cell r "id" = VNum i /\ i < next_id st.

(** No two stored rows have e-mails the server holds equal. *)
Definition emails_distinct (P : Platform) (st : Store) : Prop :=
  forall i j r1 r2,
    rows st !! i = Some r1 -> rows st !! j = Some r2 ->
    sql_eq P (cell r1 "email") (cell r2 "email") = true -> i = j.

(** The e-mail and the password the gate reads in a header that starts with
    ["Basic "]: the text before the first colon of the credentials, and the
    text between the first and the second. *)
Definition presented_email (P : Platform) (authHeader : string) : string :=
  before_first ":" (presented P authHeader).

Definition presented_password (P : Platform) (authHeader : string) : option string :=
  before_first ":" <$> after_first ":" (presented P authHeader).

(** The number of occurrences of a character. *)
Fixpoint occurrences (c : ascii) (s : string) : nat :=
  match s with
  | EmptyString => O
  | String a s' => ((if Ascii.eqb a c then 1 else 0) + occurrences c s')%nat
  end.

(** The one-character string. *)
Definition char (c : ascii) : string := String c EmptyString.

(** ** A concrete platform

    An executable instance on which the handlers can be run: Node's lenient
    base64 decoder, a transparent stand-in for bcrypt, a plain e-mail check,
    the binary collation and a server that refuses nothing. *)
Module Demo.

(** The value of a base64 digit; Node accepts the URL alphabet too. *)
Definition sextet (a : ascii) : option N :=
  let n := N_of_ascii a in
  if ((65 <=? n) && (n <=? 90))%N then Some (n - 65)%N
  else if ((97 <=? n) && (n <=? 122))%N then Some (n - 71)%N
  else if ((48 <=? n) && (n <=? 57))%N then Some (n + 4)%N
  else if ((n =? 43) || (n =? 45))%N then Some 62%N
  else if ((n =? 47) || (n =? 95))%N then Some 63%N
  else None.

(** The digits of the input: other characters are skipped, ['='] ends the
    input. *)
Fixpoint sextets (s : string) : list N :=
  match s with
  | EmptyString => []
  | String a s' =>
      if Ascii.eqb a "=" then []
      else match sextet a with
           | Some d => d :: sextets s'
           | None => sextets s'
           end
  end.

(** Four digits make three bytes; a tail of three makes two, of two makes
    one.  ['ascii'] keeps the low seven bits of each byte. *)
Fixpoint bytes (ds : list N) : string :=
  let byte n := ascii_of_N (N.land n 127) in
  match ds with
  | a :: b :: c :: d :: rest =>
      String (byte (a * 4 + b / 16))
        (String (byte ((b mod 16) * 16 + c / 4))
           (String (byte ((c mod 4) * 64 + d)) (bytes rest)))
  | [a; b; c] =>
      String (byte (a * 4 + b / 16)) (String (byte ((b mod 16) * 16 + c / 4)) EmptyString)
  | [a; b] => String (byte (a * 4 + b / 16)) EmptyString
  | _ => EmptyString
  end%N.

Definition node_base64_ascii (s : string) : string := bytes (sextets s).

Definition toy_hash (salt plain : string) : string := "$" +:+ salt +:+ "$" +:+ plain.

Definition toy_compare (plain digest : string) : bool :=
  match after_first "$" digest with
  | Some tail =>
      match after_first "$" tail with
      | Some p => String.eqb p plain
      | None => false
      end
  | None => false
  end.

Definition simple_isEmail (s : string) : bool :=
  match split "@" s with
  | [l; d] => negb (String.eqb l "") && (1 <? length (split "." d))%nat
  | _ => false
  end.

(** A small server for the [UPDATE] statements the model does not read
    itself.  It works on the text the program sends: a [#] starts a comment
    that runs to the end of the text; what is left must be
    [UPDATE users SET c = e, ... WHERE id = ?] with plain column names and
    [?] or [NOW()] on the right; the bound values must be as many as the
    placeholders that are left.  Anything else is an error. *)
Fixpoint cut (sep s : string) : option (string * string) :=
  if startsWith sep s then Some ("", string_drop (String.length sep) s)
  else match s with
       | EmptyString => None
       | String a s' =>
           match cut sep s' with
           | Some (before, after) => Some (String a before, after)
           | None => None
           end
       end.

Fixpoint trim_left (s : string) : string :=
  match s with
  | String a s' => if Ascii.eqb a " " then trim_left s' else s
  | EmptyString => EmptyString
  end.

Fixpoint trim_right (s : string) : string :=
  match s with
  | EmptyString => EmptyString
  | String a s' =>
      let t := trim_right s' in
      if Ascii.eqb a " " && String.eqb t "" then EmptyString else String a t
  end.

Definition trim (s : string) : string := trim_right (trim_left s).

Definition parse_assignment (text : string) : option (string * rhs) :=
  match cut "=" text with
  | Some (target, e) =>
      if sql_identifier (trim target) then
        if String.eqb (trim e) "?" then Some (trim target, Placeholder)
        else if String.eqb (trim e) "NOW()" then Some (trim target, NowCall)
        else None
      else None
  | None => None
  end.

Definition parse_update (text : string) : option (list (string * rhs)) :=
  let code := before_first "#" text in
  if startsWith "UPDATE users SET " code then
    match cut " WHERE id = ?" (string_drop 17 code) with
    | Some (sets, tail) =>
        if String.eqb (trim tail) "" then mapM parse_assignment (split "," sets)
        else None
    | None => None
    end
  else None.

Definition same_id (a b : value) : bool :=
  match a, b with
  | VNum x, VNum y => x =? y
  | VStr s, VStr t => String.eqb s t
  | _, _ => false
  end.

Definition small_server (st : Store) (s : statement) (now : Z) : option (list Row) :=
  match s with
  | Insert _ _ => None
  | Update sets params =>
      match parse_update (update_query sets) with
      | Some sets' =>
          if (length params =? S (holes sets'))%nat then
            match bind_params sets' params now with
            | Some (asg, [id]) =>
                Some (map (fun r => if same_id (cell r "id") (to_cell id)
                                    then assign r asg else r) (rows st))
            | _ => None
            end
          else None
      | None => None
      end
  end.

Definition platform : Platform :=
  {| base64_ascii := node_base64_ascii;
     bcrypt_compare := toy_compare;
     bcrypt_hash := toy_hash;
     isEmail := simple_isEmail;
     collate := String.eqb;
     refuses := fun _ _ => false;
     foreign := small_server;
     number_text := pretty |}.

Definition env : Env :=
  {| db_now := 1700000000000; date_now := 1700000000123;
     random36 := "0.4fzyo82mvyr"; salt := "salt" |}.

(** A stored user whose password is ["secret1"]. *)
Definition alice : Row :=
  list_to_map
    [("id", VNum 1); ("first_name", VStr "A"); ("last_name", VStr "B");
     ("email", VStr "a@b.com"); ("password", VStr "$salt$secret1");
     ("type", VStr "employee"); ("company_id", VNull);
     ("subscription", VStr "Basic"); ("lang", VStr "en"); ("plan", VNum 0);
     ("avatar", VStr ""); ("created_by", VNum 0); ("is_active", VNum 1);
     ("is_login_enable", VNum 1); ("dark_mode", VNum 0);
     ("messenger_color", VStr "#2180f3"); ("is_disable", VNum 1);
     ("created_at", VNum 1600000000000); ("updated_at", VNum 1600000000000);
     ("last_login", VNull)].

Definition store : Store := {| rows := [alice]; next_id := 2 |}.

(** [Basic] followed by the base64 text of [a@b.com:secret1]. *)
Definition alice_header : string := "Basic YUBiLmNvbTpzZWNyZXQx".

(** The same user after choosing the password ["pass:word"], and the
    header that carries [a@b.com:pass:word]. *)
Definition alice_colon : Row := <["password" := VStr "$salt$pass:word"]> alice.

Definition colon_store : Store := {| rows := [alice_colon]; next_id := 2 |}.

Definition colon_header : string := "Basic YUBiLmNvbTpwYXNzOndvcmQ=".

(** The same user, deactivated. *)
Definition alice_inactive : Row := <["is_active" := VNum 0]> alice.

Definition inactive_store : Store := {| rows := [alice_inactive]; next_id := 2 |}.

(** Requests to [PUT /api/profile] with alice's credentials. *)
Definition deactivate : request :=
  {| authorization := Some alice_header; body := [("is_active", VNum 0)] |}.

Definition to_silver : request :=
  {| authorization := Some alice_header; body := [("subscription", VStr "Silver")] |}.

Definition to_enterprise : request :=
  {| authorization := Some alice_header; body := [("subscription", VStr "Enterprise")] |}.


(** A header with more after the credentials. *)
Definition alice_header_more : string := "Basic YUBiLmNvbTpzZWNyZXQx and more".

Definition plan_and_silver : request :=
  {| authorization := Some alice_header;
     body := [("plan", VNum 3); ("subscription", VStr "Silver")] |}.

(** A registration that also supplies fields the client may not set. *)
Definition carol_signup : request :=
  {| authorization := None;
     body := [("first_name", VStr "C"); ("last_name", VStr "D");
              ("email", VStr "c@d.com"); ("password", VStr "secret2");
              ("type", VStr "company"); ("subscription", VStr "Enterprise");
              ("plan", VNum 3); ("is_active", VNum 0)] |}.

(** The surroundings when [Math.random()] is one half, whose base-36 text
    is ["0.i"]. *)
Definition env_half : Env :=
  {| db_now := 1700000000000; date_now := 1700000000123;
     random36 := "0.i"; salt := "salt" |}.

(** A registration whose password is too short. *)
Definition short_signup : Obj.t value :=
  [("first_name", VStr "E"); ("last_name", VStr "F"); ("email", VStr "e@f.com");
   ("password", VStr "abc"); ("type", VStr "admin")].

(** The login that follows [carol_signup]. *)
Definition carol_login : Obj.t value :=
  [("email", VStr "c@d.com"); ("password", VStr "secret2")].

Definition alice_login : request :=
  {| authorization := None;
     body := [("email", VStr "a@b.com"); ("password", VStr "secret1")] |}.

End Demo.


(** * Properties *)

(** ** Strings *)

Lemma split_first c s : split c s !! 0%nat = Some (before_first c s).
Proof.
  induction s as [|a s IH]; simpl; [done|].
  destruct (Ascii.eqb a c); [done|].
  destruct (split c s) as [|piece rest]; simpl in *; congruence.
Qed.

Lemma split_second c s : split c s !! 1%nat = before_first c <$> after_first c s.
Proof.
  induction s as [|a s IH]; simpl; [done|].
  destruct (Ascii.eqb a c); simpl.
  - apply split_first.
  - destruct (split c s) as [|piece rest]; simpl in *; done.
Qed.

Lemma startsWith_prefix p s :
  startsWith p s = true -> s = p +:+ string_drop (String.length p) s.
Proof.
  revert s. induction p as [|a p IH]; intros [|b s]; simpl; try done.
  destruct (Ascii.eqb_spec a b) as [->|]; [|done].
  intros H.
  change (String b s = String b (p +:+ string_drop (String.length p) s)).
  f_equal. by apply IH.
Qed.

Lemma basic_token h :
  startsWith "Basic " h = true -> split " " h !! 1%nat = Some (payload h).
Proof.
  intros H. rewrite split_second. unfold payload.
  rewrite (startsWith_prefix _ _ H) at 1. done.
Qed.

Lemma before_first_empty_tail c s :
  after_first c s = Some "" -> before_first c <$> after_first c s = Some "".
Proof. by intros ->. Qed.

(** ** The authentication gate *)
Section Gate.

Context (P : Platform).

(** What [authenticate] does with the decoded credentials is decided by
    the text before the first colon and the text between the first and
    the second. *)
Lemma authenticate_pieces h :
  startsWith "Basic " h = true ->
  let c := presented P h in
  authenticate P h =
    let email := Some (before_first ":" c) in
    let password := before_first ":" <$> after_first ":" c in
    if negb (nonempty email) || negb (nonempty password) then
      ret (Rejected (reply 401 false "Email and password required"))
    else
      let* users := select_active_by_email P (VStr (default "" email)) in
      match users with
      | [] => ret (Rejected (reply 401 false "Invalid credentials"))
      | user :: _ =>
          if negb (truthy (cell user "is_login_enable")) then
            ret (Rejected (reply 403 false "Login is disabled for this account"))
          else
            let* isPasswordValid :=
              compare P (VStr (default "" password)) (cell user "password") in
            if negb isPasswordValid then
              ret (Rejected (reply 401 false "Invalid credentials"))
            else ret (Passed user)
      end.
Proof.
  intros H. unfold authenticate, presented.
  rewrite (basic_token _ H). cbv zeta.
  by rewrite split_first, split_second.
Qed.

Lemma malformed_rejected authHeader next st :
  malformed P authHeader ->
  exists msg, authenticateUser P authHeader next st = (reply 401 false msg, st).
Proof.
  destruct authHeader as [h|]; [|by eexists].
  unfold malformed, authenticateUser. intros Hbad.
  destruct (startsWith "Basic " h) eqn:Hprefix;
    [|rewrite orb_true_r; by eexists].
  destruct (String.eqb h ""); [by eexists|].
  cbn [orb negb]. rewrite (authenticate_pieces _ Hprefix). cbv zeta.
  destruct Hbad as [Hb|[Hb|[Hb|Hb]]]; [congruence| | |];
    rewrite Hb; cbn; rewrite ?orb_true_r; by eexists.
Qed.

End Gate.

(** C3 (as amended). A request to a route behind the gate whose
    Authorization header is absent, does not start with ["Basic "], or has a
    payload (its second space-separated piece, decoded leniently) without a
    non-empty e-mail before the first colon or without a non-empty text
    after it, is answered with status 401, carries no user, and leaves the
    table as it was. *)
Theorem malformed_header_unauthenticated
    (P : Platform) (env : Env) (r : route) (req : request) (st : Store) :
  protected r = true ->
  malformed P (authorization req) ->
  let out := serve P env r req st in
  code out.1 = 401 /\ status out.1 = false /\ user out.1 = None /\ out.2 = st.
Proof.
  intros Hr Hbad.
  destruct r; try discriminate Hr; simpl;
    unfold get_profile, put_profile, post_logout;
    match goal with
    | |- context [authenticateUser P ?h ?next st] =>
        destruct (malformed_rejected P h next st Hbad) as [msg ->]
    end; done.
Qed.

Lemma malformed_header_unauthenticated_witness :
  let req := {| authorization := Some "Basic YUBiLmNvbQ=="; body := [] |} in
  let out := serve Demo.platform Demo.env GetProfile req Demo.store in
  code out.1 = 401 /\ status out.1 = false /\ user out.1 = None /\ out.2 = Demo.store.
Proof.
  apply (malformed_header_unauthenticated Demo.platform Demo.env GetProfile
           {| authorization := Some "Basic YUBiLmNvbQ=="; body := [] |} Demo.store).
  - reflexivity.
  - simpl. right. right. left. vm_compute. reflexivity.
Defined.

(** C3 (as stated) fails: the gate reads the second space-separated piece
    of the header and nothing after it.  The header
    [Basic YUBiLmNvbTpzZWNyZXQx and more] is not a Basic credential, yet the
    profile route answers it 200 with the data of the user whose
    credentials the piece carries. *)
Lemma header_with_more_is_admitted :
  let req := {| authorization := Some Demo.alice_header_more; body := [] |} in
  let out := serve Demo.platform Demo.env GetProfile req Demo.store in
  basic_credential Demo.alice_header_more = false
  /\ basic_credential Demo.alice_header = true
  /\ split " " Demo.alice_header_more !! 1%nat = Some "YUBiLmNvbTpzZWNyZXQx"
  /\ presented Demo.platform Demo.alice_header_more = "a@b.com:secret1"
  /\ code out.1 = 200
  /\ (fun u => cell u "email") <$> user out.1 = Some (VStr "a@b.com").
Proof. repeat split; vm_compute; reflexivity. Qed.

(** ** Accounts that are inactive or closed to login *)

Lemma filter_unique {A} (f : A -> bool) (l : list A) (u : A) :
  u ∈ l -> f u = true -> (forall r, r ∈ l -> f r = true -> r = u) ->
  exists rest, List.filter f l = u :: rest.
Proof.
  induction l as [|x l IH]; intros Hin Hu Huniq.
  - by apply elem_of_nil in Hin.
  - simpl. destruct (f x) eqn:Hx.
    + rewrite (Huniq x) by (done || left). by eexists.
    + apply elem_of_cons in Hin as [->|Hin]; [congruence|].
      apply IH; [done..|]. intros r Hr. apply Huniq. by right.
Qed.

Lemma filter_first {A} (f : A -> bool) (l : list A) (x : A) (rest : list A) :
  List.filter f l = x :: rest -> x ∈ l /\ f x = true.
Proof.
  intros H. rewrite list_elem_of_In. apply filter_In. rewrite H. by left.
Qed.

Lemma sql_eq_one_truthy P v : sql_eq P v (VNum 1) = true -> truthy v = true.
Proof. destruct v as [| |b|n|s]; simpl; try done. by intros ->%Z.eqb_eq. Qed.

Section Blocked.

Context (P : Platform) (env : Env) (st : Store) (u : Row) (e : string).
Hypothesis Hstored : u ∈ rows st.
Hypothesis Hemail : sql_eq P (cell u "email") (VStr e) = true.
Hypothesis Hunique :
  forall r, r ∈ rows st -> sql_eq P (cell r "email") (VStr e) = true -> r = u.
Hypothesis Hblocked :
  truthy (cell u "is_active") = false \/ truthy (cell u "is_login_enable") = false.

Lemma blocked_login body :
  prop body "email" = VStr e ->
  let out := post_login P env body st in
  status out.1 = false /\ user out.1 = None /\ out.2 = st
  /\ (validate_login P body = [] -> code out.1 = 403).
Proof.
  intros He. unfold post_login, try_catch, login.
  destruct (validate_login P body) as [|err errs]; [|done].
  rewrite He. unfold bind, select_by_email, select. cbn [existsb defined negb orb].
  destruct (filter_unique (fun r => sql_eq P (cell r "email") (VStr e)) _ u
              Hstored Hemail Hunique) as [rest ->].
  destruct Hblocked as [Hb|Hb].
  - rewrite Hb. done.
  - rewrite Hb. destruct (truthy (cell u "is_active")); done.
Qed.

Lemma blocked_gate h next :
  before_first ":" (presented P h) = e ->
  let out := authenticateUser P (Some h) next st in
  status out.1 = false /\ user out.1 = None /\ out.2 = st
  /\ (code out.1 = 401 \/ code out.1 = 403).
Proof.
  intros He. unfold authenticateUser.
  destruct (startsWith "Basic " h) eqn:Hprefix;
    [|rewrite orb_true_r; cbn; tauto].
  destruct (String.eqb h ""); [cbn; tauto|].
  cbn [orb negb]. rewrite (authenticate_pieces _ _ Hprefix). cbv zeta.
  rewrite He. destruct (_ || _); [cbn; tauto|].
  unfold bind, select_active_by_email, select.
  cbn [existsb defined negb orb default].
  destruct (List.filter _ (rows st)) as [|r rest] eqn:Hsel; [cbn; tauto|].
  apply filter_first in Hsel as [Hr [Hre Hra]%andb_prop].
  apply Hunique in Hre as ->; [|done].
  apply sql_eq_one_truthy in Hra.
  destruct Hblocked as [Hb|Hb]; [congruence|].
  rewrite Hb. cbn. tauto.
Qed.

End Blocked.

(** C4. A stored user whose [is_active] or [is_login_enable] is false cannot
    authenticate, whatever password is supplied: the login route answers
    403 (after validation) and every route behind the gate answers 401 or
    403, never with a user and never changing the table.  The user is the
    one record with the presented e-mail. *)
Theorem blocked_account_cannot_authenticate
    (P : Platform) (env : Env) (st : Store) (u : Row) (e : string) :
  u ∈ rows st ->
  sql_eq P (cell u "email") (VStr e) = true ->
  (forall r, r ∈ rows st -> sql_eq P (cell r "email") (VStr e) = true -> r = u) ->
  truthy (cell u "is_active") = false \/ truthy (cell u "is_login_enable") = false ->
  (forall req,
      prop (body req) "email" = VStr e ->
      let out := serve P env PostLogin req st in
      status out.1 = false /\ user out.1 = None /\ out.2 = st
      /\ (validate_login P (body req) = [] -> code out.1 = 403))
  /\ (forall r req h,
        protected r = true ->
        authorization req = Some h ->
        before_first ":" (presented P h) = e ->
        let out := serve P env r req st in
        status out.1 = false /\ user out.1 = None /\ out.2 = st
        /\ (code out.1 = 401 \/ code out.1 = 403)).
Proof.
  intros Hin He Huniq Hb. split.
  - intros req Hreq. by apply blocked_login with (u := u) (e := e).
  - intros r req h Hr Hh Hmail.
    destruct r; try discriminate Hr; simpl;
      unfold get_profile, put_profile, post_logout; rewrite Hh;
      by apply blocked_gate with (u := u) (e := e).
Qed.

Lemma blocked_account_cannot_authenticate_witness :
  let out := serve Demo.platform Demo.env PostLogin Demo.alice_login Demo.inactive_store in
  status out.1 = false /\ user out.1 = None /\ out.2 = Demo.inactive_store
  /\ code out.1 = 403.
Proof.
  destruct (blocked_account_cannot_authenticate Demo.platform Demo.env
              Demo.inactive_store Demo.alice_inactive "a@b.com") as [Hlogin _].
  - apply list_elem_of_here.
  - vm_compute. reflexivity.
  - intros r Hr _. by apply list_elem_of_singleton in Hr.
  - left. vm_compute. reflexivity.
  - destruct (Hlogin Demo.alice_login) as (Hs & Hu & Hst & Hc).
    + reflexivity.
    + refine (conj Hs (conj Hu (conj Hst (Hc _)))). vm_compute. reflexivity.
Defined.

(** ** The password of the Basic credentials *)

(** The password the gate verifies is the piece between the first and the
    second colon of the credentials. *)
Lemma gate_password_piece (credentials : string) :
  split ":" credentials !! 1%nat
  = before_first ":" <$> after_first ":" credentials.
Proof. apply split_second. Qed.

(** C5. The credentials [a@b.com:pass:word] are not split once: the gate
    verifies ["pass"], not the remainder ["pass:word"] after the first
    colon, so the user whose password is ["pass:word"] logs in through
    [/api/login] and is turned away by the gate with 401. *)
Theorem gate_cuts_password_at_second_colon :
  presented Demo.platform Demo.colon_header = "a@b.com:pass:word"
  /\ after_first ":" "a@b.com:pass:word" = Some "pass:word"
  /\ split ":" "a@b.com:pass:word" !! 1%nat = Some "pass"
  /\ code (serve Demo.platform Demo.env PostLogin
             {| authorization := None;
                body := [("email", VStr "a@b.com"); ("password", VStr "pass:word")] |}
             Demo.colon_store).1 = 200
  /\ code (serve Demo.platform Demo.env GetProfile
             {| authorization := Some Demo.colon_header; body := [] |}
             Demo.colon_store).1 = 401.
Proof. repeat split; vm_compute; reflexivity. Qed.

(** ** No response carries the password *)

Lemma strip_password_clean (row : option Row) : strip_password row !! "password" = None.
Proof. apply lookup_delete_eq. Qed.

Lemma reply_user_clean c msg row : no_password (reply_user c msg (strip_password row)).
Proof. intros u [= <-]. apply strip_password_clean. Qed.

Lemma reply_clean (r : response) : user r = None -> no_password r.
Proof. intros H u. by rewrite H. Qed.

Create HintDb clean.
#[local] Hint Resolve reply_user_clean : clean.
#[local] Hint Extern 1 (no_password _) => (apply reply_clean; reflexivity) : clean.

Ltac run_handler :=
  unfold try_catch, select_by_email, select_active_by_email, select_by_id, select,
    execute, compare, hash, bind, ret, throw;
  repeat case_match; simplify_eq.

(** The [INSERT] of the register route binds: sixteen placeholders, sixteen
    values. *)
Lemma insert_binds now v1 v2 v3 v4 v5 v6 v7 v8 v9 v10 v11 v12 v13 v14 v15 v16 :
  bind_params insert_columns
    [v1; v2; v3; v4; v5; v6; v7; v8; v9; v10; v11; v12; v13; v14; v15; v16] now
  = Some ([("first_name", to_cell v1); ("last_name", to_cell v2); ("email", to_cell v3);
           ("password", to_cell v4); ("type", to_cell v5); ("company_id", to_cell v6);
           ("subscription", to_cell v7); ("lang", to_cell v8); ("plan", to_cell v9);
           ("avatar", to_cell v10); ("created_by", to_cell v11);
           ("is_active", to_cell v12); ("is_login_enable", to_cell v13);
           ("dark_mode", to_cell v14); ("messenger_color", to_cell v15);
           ("is_disable", to_cell v16); ("created_at", VNum now);
           ("updated_at", VNum now)], []).
Proof. reflexivity. Qed.

Section Clean.

Context (P : Platform).

Lemma gate_clean authHeader next st :
  (forall u st', no_password (next u st').1) ->
  no_password (authenticateUser P authHeader next st).1.
Proof.
  intros Hnext. unfold authenticateUser.
  destruct authHeader as [h|]; [|auto with clean].
  destruct (_ || _); [auto with clean|].
  destruct (authenticate P h st) as [[r|u] st'|ex st'] eqn:Hgate.
  - revert Hgate. unfold authenticate. run_handler;
      intros; simplify_eq; auto with clean.
  - apply Hnext.
  - auto with clean.
Qed.

Lemma register_clean env body st : no_password (post_register P env body st).1.
Proof.
  unfold post_register, try_catch, register.
  destruct (validate_register P body); [|auto with clean].
  unfold bind, select_by_email, select_by_id, select, hash, execute, ret, throw.
  destruct (existsb _ [prop body "email"]); [auto with clean|].
  destruct (List.filter _ (rows st)); [|auto with clean].
  destruct (prop body "password"); try (auto with clean).
  rewrite insert_binds.
  destruct (existsb _ _); [auto with clean|].
  destruct (refuses _ _ _); [auto with clean|].
  destruct (existsb _ _); cbn [fst]; auto with clean.
Qed.

Lemma login_clean env body st : no_password (post_login P env body st).1.
Proof. unfold post_login, login. run_handler; cbn [fst]; auto with clean. Qed.

Lemma update_clean env u body st :
  no_password (try_catch (update P env u body) reply_internal st).1.
Proof. unfold update. run_handler; cbn [fst]; auto with clean. Qed.

End Clean.

(** C2. Whatever the route and the request, when the response carries a
    user object, that object has no [password] key. *)
Theorem response_user_has_no_password
    (P : Platform) (env : Env) (r : route) (req : request) (st : Store) (u : Row) :
  user (serve P env r req st).1 = Some u -> u !! "password" = None.
Proof.
  revert u. change (no_password (serve P env r req st).1).
  destruct r; simpl.
  - apply register_clean.
  - apply login_clean.
  - apply gate_clean. intros; simpl; auto with clean.
  - apply gate_clean. intros. apply update_clean.
  - apply gate_clean. intros; simpl; auto with clean.
Qed.

Lemma response_user_has_no_password_witness :
  exists u,
    user (serve Demo.platform Demo.env PostLogin Demo.alice_login Demo.store).1 = Some u
    /\ u !! "password" = None.
Proof.
  destruct (user (serve Demo.platform Demo.env PostLogin Demo.alice_login Demo.store).1)
    as [u|] eqn:Hu.
  - exists u. split; [reflexivity|].
    exact (response_user_has_no_password Demo.platform Demo.env PostLogin
             Demo.alice_login Demo.store u Hu).
  - assert ((fun r => cell r "id")
              <$> user (serve Demo.platform Demo.env PostLogin Demo.alice_login
                          Demo.store).1 = Some (VNum 1)) as Hid
      by (vm_compute; reflexivity).
    rewrite Hu in Hid. discriminate Hid.
Defined.

(** ** The statement of the update handler *)

Lemma get_keys {A} (o : Obj.t A) k a : Obj.get o k = Some a -> k ∈ Obj.keys o.
Proof.
  induction o as [|[k' a'] o IH]; simpl; [done|].
  destruct (String.eqb_spec k' k) as [->|]; [left|right; auto].
Qed.

Lemma set_cases {A} (o : Obj.t A) k a :
  (k ∈ Obj.keys o /\ length (Obj.set o k a) = length o)
  \/ ((k ∉ Obj.keys o) /\ Obj.set o k a = o ++ [(k, a)]).
Proof.
  induction o as [|[k' a'] o IH]; simpl.
  - right. split; [apply not_elem_of_nil|done].
  - destruct (String.eqb_spec k' k) as [->|Hne].
    + left. split; [left|done].
    + destruct IH as [[Hin Hlen]|[Hout Heq]].
      * left. split; [by right|simpl; by rewrite Hlen].
      * right. rewrite Heq. split; [|done].
        rewrite not_elem_of_cons. split; [done|exact Hout].
Qed.

Lemma set_keys {A} (o : Obj.t A) k a k' :
  k' ∈ Obj.keys (Obj.set o k a) <-> k' ∈ Obj.keys o \/ k' = k.
Proof.
  induction o as [|[k0 a0] o IH]; simpl.
  - rewrite list_elem_of_singleton. split; [auto|]. intros [H| ->]; [|done].
    by apply elem_of_nil in H.
  - destruct (String.eqb_spec k0 k) as [->|Hne]; simpl.
    + rewrite !elem_of_cons. intuition congruence.
    + rewrite !elem_of_cons, IH. tauto.
Qed.

Lemma set_placeholders_keys ks o k :
  k ∈ Obj.keys (set_placeholders ks o) <-> k ∈ Obj.keys o \/ k ∈ ks.
Proof.
  revert o. induction ks as [|k0 ks IH]; intros o; simpl.
  - rewrite elem_of_nil. tauto.
  - rewrite IH, set_keys, elem_of_cons. tauto.
Qed.

(** The object never has more entries than keys were set; when it has as
    many, the keys were new and distinct and came in order. *)
Lemma set_placeholders_length ks o :
  (length (set_placeholders ks o) <= length o + length ks)%nat
  /\ (length (set_placeholders ks o) = (length o + length ks)%nat ->
      set_placeholders ks o = o ++ map (fun k => (k, Placeholder)) ks
      /\ NoDup ks /\ forall k, k ∈ ks -> k ∉ Obj.keys o).
Proof.
  revert o. induction ks as [|k ks IH]; intros o; simpl.
  - split; [lia|]. intros _. rewrite app_nil_r.
    split; [done|]. split; [constructor|]. intros k H. by apply elem_of_nil in H.
  - destruct (IH (Obj.set o k Placeholder)) as [Hle Heq].
    destruct (set_cases o k Placeholder) as [[Hin Hlen]|[Hout Hset]].
    + rewrite Hlen in Hle, Heq. split; [lia|]. intros Hlen'. lia.
    + rewrite Hset in Hle, Heq |- *. rewrite length_app in Hle, Heq. simpl in *.
      split; [lia|]. intros Hlen'.
      destruct Heq as (Hfold & Hnodup & Hfresh); [lia|].
      split; [by rewrite Hfold, <- app_assoc|].
      split.
      * constructor; [|done]. intros Hk. apply (Hfresh k Hk).
        unfold Obj.keys. rewrite map_app, elem_of_app. right. by left.
      * intros k' [->|Hk']%elem_of_cons; [done|].
        intros Hko. apply (Hfresh k' Hk').
        unfold Obj.keys. rewrite map_app, elem_of_app. by left.
Qed.

Lemma holes_le_length sets : (holes sets <= length sets)%nat.
Proof. unfold holes. apply filter_length_le. Qed.


Lemma holes_placeholders ks : holes (map (fun k => (k, Placeholder)) ks) = length ks.
Proof. induction ks as [|k ks IH]; [done|]. unfold holes in *. simpl. by rewrite IH. Qed.

Lemma holes_set_now o k : (holes (Obj.set o k NowCall) <= holes o)%nat.
Proof.
  induction o as [|[k' e] o IH]; [done|]. simpl.
  destruct (String.eqb k' k); unfold holes in *; simpl.
  - destruct e; unfold is_placeholder; simpl; lia.
  - destruct (is_placeholder (k', e)); simpl; lia.
Qed.

(** Overwriting a placeholder with [NOW()] loses a placeholder. *)
Lemma holes_overwrite ks k :
  k ∈ ks ->
  (holes (Obj.set (map (fun k => (k, Placeholder)) ks) k NowCall) < length ks)%nat.
Proof.
  induction ks as [|k' ks IH]; intros Hin; [by apply elem_of_nil in Hin|].
  simpl. destruct (String.eqb_spec k' k) as [->|Hne].
  - change (holes (map (fun k => (k, Placeholder)) ks) < S (length ks))%nat.
    rewrite holes_placeholders. lia.
  - apply elem_of_cons in Hin as [->|Hin]; [done|].
    change (S (holes (Obj.set (map (fun k => (k, Placeholder)) ks) k NowCall))
            < S (length ks))%nat.
    specialize (IH Hin). lia.
Qed.

Lemma bind_params_length sets params now asg rest :
  bind_params sets params now = Some (asg, rest) ->
  length params = (holes sets + length rest)%nat.
Proof.
  revert params asg. induction sets as [|[k [|]] sets IH]; intros params asg; simpl.
  - by intros [= _ ->].
  - destruct params as [|v params]; [done|].
    destruct (bind_params sets params now) as [[asg' rest']|] eqn:Hb; [|done].
    intros [= _ <-]. apply IH in Hb. unfold holes in *. simpl. lia.
  - destruct (bind_params sets params now) as [[asg' rest']|] eqn:Hb; [|done].
    intros [= _ <-]. apply IH in Hb. exact Hb.
Qed.

Lemma bind_params_placeholders (kvs : list (string * value)) tail rest now :
  bind_params (map (fun k => (k, Placeholder)) (map fst kvs) ++ tail)
              (map snd kvs ++ rest) now
  = match bind_params tail rest now with
    | Some (asg, rest') => Some (map (fun kv => (kv.1, to_cell kv.2)) kvs ++ asg, rest')
    | None => None
    end.
Proof.
  induction kvs as [|[k v] kvs IH]; simpl.
  - by destruct (bind_params tail rest now) as [[]|].
  - rewrite IH. by destruct (bind_params tail rest now) as [[]|].
Qed.

(** When the statement binds, leaving exactly the id, its columns are the
    intended pairs in order, without repetition, followed by [updated_at]. *)
Lemma bind_update (kvs : list (string * value)) userId now asg id :
  bind_params (Obj.set (set_placeholders (map fst kvs) []) "updated_at" NowCall)
              (map snd kvs ++ [userId]) now = Some (asg, [id]) ->
  id = userId
  /\ asg = map (fun kv => (kv.1, to_cell kv.2)) kvs ++ [("updated_at", VNum now)]
  /\ NoDup (map fst kvs)
  /\ "updated_at" ∉ map fst kvs.
Proof.
  intros Hb. pose proof (bind_params_length _ _ _ _ _ Hb) as Hlen.
  rewrite length_app, length_map in Hlen. simpl in Hlen.
  set (ks := map fst kvs) in *.
  pose proof (holes_set_now (set_placeholders ks []) "updated_at") as H1.
  pose proof (holes_le_length (set_placeholders ks [])) as H2.
  destruct (set_placeholders_length ks []) as [H3 H4]. simpl in H3, H4.
  assert (length ks = length kvs) as Hks by apply length_map.
  destruct H4 as (Hfold & Hnodup & _); [lia|]. simpl in Hfold.
  assert ("updated_at" ∉ ks) as Hfresh.
  { intros Hin. apply holes_overwrite in Hin. rewrite <- Hfold in Hin. lia. }
  destruct (set_cases (set_placeholders ks []) "updated_at" NowCall)
    as [[Hin _]|[_ Hset]].
  { exfalso. apply Hfresh. apply set_placeholders_keys in Hin as [Hin|Hin]; [|done].
    by apply elem_of_nil in Hin. }
  rewrite Hset, Hfold in Hb. unfold ks in Hb.
  rewrite bind_params_placeholders in Hb. simpl in Hb.
  injection Hb as <- <-. done.
Qed.

(** The loop over the keys of the body. *)
Lemma collect_fold body ks acc :
  fold_left (collect body) ks acc
  = (set_placeholders (List.filter not_proto (List.filter (updatable body) ks)) acc.1,
     acc.2 ++ map (prop body) (List.filter (updatable body) ks)).
Proof.
  revert acc. induction ks as [|k ks IH]; intros [o vs]; simpl.
  - by rewrite app_nil_r.
  - rewrite IH. unfold collect, updatable.
    destruct (defined (prop body k) && negb (String.eqb k "password")); simpl; [|done].
    unfold Obj.put, not_proto.
    destruct (String.eqb k "__proto__"); simpl; by rewrite <- app_assoc.
Qed.

Lemma collect_all_sent body :
  collect_all body
  = (set_placeholders (List.filter not_proto (sent_keys body)) [],
     map (prop body) (sent_keys body)).
Proof. unfold collect_all. by rewrite collect_fold. Qed.

Lemma finish_update_sent body userId :
  finish_update body userId (collect_all body)
  = (Obj.set (set_placeholders (List.filter not_proto (map fst (sent_pairs body))) [])
       "updated_at" NowCall,
     map snd (sent_pairs body) ++ [userId]).
Proof.
  rewrite collect_all_sent. unfold finish_update, sent_pairs.
  rewrite !map_app, !map_map. simpl. rewrite map_id, List.filter_app.
  unfold set_placeholders. rewrite fold_left_app.
  destruct (truthy (prop body "subscription")); simpl; [done|].
  by rewrite app_nil_r.
Qed.













(** Plain keys make plain targets. *)
Lemma lower_plain_names :
  lower "plan" = "plan" /\ lower "updated_at" = "updated_at"
  /\ lower "password" = "password" /\ lower "id" = "id"
  /\ lower "last_login" = "last_login".
Proof. repeat split. Qed.

(** ** What a successful update went through *)
Section Update.

Context (P : Platform).

Lemma authenticate_outcome h st :
  match authenticate P h st with
  | Returned (Passed u) st' => st' = st /\ u ∈ rows st
  | Returned (Rejected r) st' => st' = st /\ code r <> 200
  | Threw _ st' => st' = st
  end.
Proof.
  unfold authenticate. run_handler; try done.
  split; [done|].
  match goal with H : List.filter _ _ = _ :: _ |- _ => by apply filter_first in H as [? _] end.
Qed.





End Update.






Lemma Forall2_map_r {A} (R : A -> A -> Prop) (f : A -> A) (l : list A) :
  (forall x, x ∈ l -> R x (f x)) -> Forall2 R l (map f l).
Proof.
  induction l as [|x l IH]; intros H; simpl; constructor.
  - apply H. left.
  - apply IH. intros y Hy. apply H. by right.
Qed.




(** What that request does, spelled out. *)
Example deactivate_run :
  let out := serve Demo.platform Demo.env PutProfile Demo.deactivate Demo.store in
  code out.1 = 200
  /\ update_query (finish_update (body Demo.deactivate) (VNum 1)
                     (collect_all (body Demo.deactivate))).1
     = "UPDATE users SET is_active = ?, updated_at = NOW() WHERE id = ?"
  /\ (fun r => cell r "is_active") <$> rows Demo.store = [VNum 1]
  /\ (fun r => cell r "is_active") <$> rows out.2 = [VNum 0].
Proof. repeat split; vm_compute; reflexivity. Qed.

(** ** Subscription and plan *)






(** The two instances the specification names. *)
Example silver_is_plan_1 :
  (fun r => cell r "plan")
    <$> rows (serve Demo.platform Demo.env PutProfile Demo.to_silver Demo.store).2
  = [VNum 1].
Proof. vm_compute. reflexivity. Qed.

Example enterprise_is_plan_3 :
  (fun r => cell r "plan")
    <$> rows (serve Demo.platform Demo.env PutProfile Demo.to_enterprise Demo.store).2
  = [VNum 3].
Proof. vm_compute. reflexivity. Qed.



(** C10. With the body [{plan: 3, subscription: "Silver"}] the plan of the
    subscription does not override the body's plan: the statement pairs its
    three placeholders with four values (the body's 3 with [plan], the
    mapped 1 with [WHERE id]), the update is answered with status 500 and the
    stored plan stays 0, not 1. *)
Theorem plan_key_defeats_subscription_plan :
  let stmt := finish_update (body Demo.plan_and_silver) (VNum 1)
                (collect_all (body Demo.plan_and_silver)) in
  let out := serve Demo.platform Demo.env PutProfile Demo.plan_and_silver Demo.store in
  update_query stmt.1
  = "UPDATE users SET plan = ?, subscription = ?, updated_at = NOW() WHERE id = ?"
  /\ stmt.2 = [VNum 3; VStr "Silver"; VNum 1; VNum 1]
  /\ code out.1 = 500
  /\ (fun r => cell r "plan") <$> rows out.2 = [VNum 0]
  /\ planMap "Silver" = Some 1.
Proof. repeat split; vm_compute; reflexivity. Qed.

(** ** Registration *)

Lemma register_success (P : Platform) env body st resp st' :
  post_register P env body st = (resp, st') ->
  code resp = 201 ->
  exists row,
    rows st' = rows st ++ [row]
    /\ row !! "subscription" = Some (VStr "Basic")
    /\ row !! "plan" = Some (VNum 0)
    /\ row !! "is_active" = Some (VNum 1)
    /\ row !! "is_login_enable" = Some (VNum 1)
    /\ row !! "is_disable" = Some (VNum 1)
    /\ row !! "dark_mode" = Some (VNum 0)
    /\ row !! "created_by" = Some (VNum 0)
    /\ row !! "messenger_color" = Some (VStr "#2180f3")
    /\ row !! "company_id"
       = Some (if bool_decide (prop body "type" = VStr "company")
               then VStr (generateCompanyId env) else VNull).
Proof.
  unfold post_register, try_catch, register.
  destruct (validate_register P body); [|inversion 1; discriminate].
  unfold bind, select_by_email, select_by_id, select, hash, execute, ret, throw.
  destruct (existsb _ [prop body "email"]); [inversion 1; discriminate|].
  destruct (List.filter _ (rows st)); [|inversion 1; discriminate].
  destruct (prop body "password"); try (inversion 1; discriminate).
  rewrite insert_binds.
  destruct (existsb _ _); [inversion 1; discriminate|].
  destruct (refuses _ _ _); [inversion 1; discriminate|].
  destruct (existsb _ _); [inversion 1; discriminate|].
  inversion 1; subst. intros _. eexists. split; [reflexivity|].
  unfold inserted_row, assign. cbn [fold_left fst snd to_cell].
  repeat split; try (by simplify_map_eq).
  simplify_map_eq. by case_bool_decide.
Qed.

Lemma register_reads_client_fields (P : Platform) env body body' :
  (forall k, k ∈ client_fields -> prop body' k = prop body k) ->
  post_register P env body' = post_register P env body.
Proof.
  intros Hsame.
  assert (prop body' "first_name" = prop body "first_name") as H1
    by (apply Hsame; unfold client_fields; set_solver).
  assert (prop body' "last_name" = prop body "last_name") as H2
    by (apply Hsame; unfold client_fields; set_solver).
  assert (prop body' "email" = prop body "email") as H3
    by (apply Hsame; unfold client_fields; set_solver).
  assert (prop body' "password" = prop body "password") as H4
    by (apply Hsame; unfold client_fields; set_solver).
  assert (prop body' "type" = prop body "type") as H5
    by (apply Hsame; unfold client_fields; set_solver).
  assert (prop body' "lang" = prop body "lang") as H6
    by (apply Hsame; unfold client_fields; set_solver).
  assert (prop body' "avatar" = prop body "avatar") as H7
    by (apply Hsame; unfold client_fields; set_solver).
  unfold post_register, register, validate_register, check, prop_or. cbv zeta.
  by rewrite H1, H2, H3, H4, H5, H6, H7.
Qed.

(** C7. A successful registration appends one row whose subscription, plan,
    is_active, is_login_enable, is_disable, dark_mode, created_by and
    messenger_color are the fixed defaults; and the outcome of a
    registration depends on the body only through the seven fields the
    handler reads, so nothing else the body supplies (subscription, plan,
    is_active, ...) has any effect. *)
Theorem registration_defaults
    (P : Platform) (env : Env) (req : request) (st : Store)
    (resp : response) (st' : Store) :
  serve P env PostRegister req st = (resp, st') ->
  code resp = 201 ->
  (exists row,
      rows st' = rows st ++ [row]
      /\ row !! "subscription" = Some (VStr "Basic")
      /\ row !! "plan" = Some (VNum 0)
      /\ row !! "is_active" = Some (VNum 1)
      /\ row !! "is_login_enable" = Some (VNum 1)
      /\ row !! "is_disable" = Some (VNum 1)
      /\ row !! "dark_mode" = Some (VNum 0)
      /\ row !! "created_by" = Some (VNum 0)
      /\ row !! "messenger_color" = Some (VStr "#2180f3"))
  /\ (forall req',
        (forall k, k ∈ client_fields -> prop (body req') k = prop (body req) k) ->
        serve P env PostRegister req' st = (resp, st')).
Proof.
  intros Hrun Hcode. simpl in *. split.
  - destruct (register_success _ _ _ _ _ _ Hrun Hcode) as (row & H). exists row. tauto.
  - intros req' Hsame. by rewrite (register_reads_client_fields _ _ _ _ Hsame).
Qed.

Lemma registration_defaults_witness :
  let out := serve Demo.platform Demo.env PostRegister Demo.carol_signup Demo.store in
  (exists row,
      rows out.2 = rows Demo.store ++ [row]
      /\ row !! "subscription" = Some (VStr "Basic")
      /\ row !! "plan" = Some (VNum 0)
      /\ row !! "is_active" = Some (VNum 1)
      /\ row !! "is_login_enable" = Some (VNum 1)
      /\ row !! "is_disable" = Some (VNum 1)
      /\ row !! "dark_mode" = Some (VNum 0)
      /\ row !! "created_by" = Some (VNum 0)
      /\ row !! "messenger_color" = Some (VStr "#2180f3"))
  /\ (forall req',
        (forall k, k ∈ client_fields ->
                   prop (body req') k = prop (body Demo.carol_signup) k) ->
        serve Demo.platform Demo.env PostRegister req' Demo.store = (out.1, out.2)).
Proof.
  apply (registration_defaults Demo.platform Demo.env Demo.carol_signup Demo.store).
  - apply surjective_pairing.
  - vm_compute. reflexivity.
Defined.

(** ** Company identifiers *)

Lemma substring_length n m s :
  String.length (String.substring n m s) = (m `min` (String.length s - n))%nat.
Proof.
  revert n m.
  induction s as [|a s IH]; intros [|n] [|m];
    cbn [String.substring String.length]; rewrite ?IH; lia.
Qed.

(** X20. The identifier is the prefix, the decimal timestamp and at most six
    characters of the random text: six when that text has at least eight
    characters, fewer when it is shorter. *)
Lemma generateCompanyId_shape env :
  exists suffix,
    generateCompanyId env = "CMP-" +:+ pretty (date_now env) +:+ suffix
    /\ suffix = substring 2 8 (random36 env)
    /\ String.length suffix = (6 `min` (String.length (random36 env) - 2))%nat.
Proof.
  eexists. split; [reflexivity|]. split; [reflexivity|].
  unfold substring. by rewrite substring_length.
Qed.

(** X19. The registered row has a company identifier exactly when the type
    is ["company"]. *)
Lemma company_id_iff_company (P : Platform) env body st resp st' :
  post_register P env body st = (resp, st') ->
  code resp = 201 ->
  exists row,
    rows st' = rows st ++ [row]
    /\ (row !! "company_id" <> Some VNull <-> prop body "type" = VStr "company").
Proof.
  intros Hrun Hcode.
  destruct (register_success _ _ _ _ _ _ Hrun Hcode) as (row & Hrows & H).
  exists row. split; [done|].
  destruct H as (_ & _ & _ & _ & _ & _ & _ & _ & ->).
  case_bool_decide; split; try done.
Qed.

(** C8. When [Math.random()] is one half, whose base-36 text is ["0.i"], the
    identifier ends in one random character, not six. *)
Theorem company_id_random_part_can_be_short :
  generateCompanyId Demo.env_half = "CMP-1700000000123i"
  /\ substring 2 8 (random36 Demo.env_half) = "i"
  /\ String.length (substring 2 8 (random36 Demo.env_half)) = 1%nat.
Proof. repeat split; vm_compute; reflexivity. Qed.

(** ** Login *)

(** C9. After a successful login the user of the response is the row that
    was loaded before [last_login] was written, without its password: its
    [last_login] is the stored value of before the request, while in the
    table every row with that id now has [last_login = NOW()]. *)
Theorem login_returns_prior_snapshot
    (P : Platform) (env : Env) (req : request) (st : Store)
    (resp : response) (st' : Store) :
  serve P env PostLogin req st = (resp, st') ->
  code resp = 200 ->
  exists u,
    head (List.filter (fun r => sql_eq P (cell r "email") (prop (body req) "email"))
            (rows st)) = Some u
    /\ user resp = Some (delete "password" u)
    /\ delete "password" u !! "last_login" = u !! "last_login"
    /\ Forall2 (fun r r' => if selected P (cell u "id") r
                            then r' = <["last_login" := VNum (db_now env)]> r
                            else r' = r)
         (rows st) (rows st').
Proof.
  simpl. unfold post_login, login. run_handler;
    intros Heq Hcode; inversion Heq; subst; try discriminate Hcode.
  match goal with H : List.filter _ _ = ?u :: _ |- _ => exists u; rewrite H end.
  match goal with H : bind_params _ _ _ = Some _ |- _ =>
    cbn in H; inversion H; subst end.
  do 2 (split; [done|]). split; [by apply lookup_delete_ne|].
  apply Forall2_map_r. intros r _. unfold selected.
  by destruct (sql_eq P (cell r "id") _).
Qed.

Lemma login_returns_prior_snapshot_witness :
  let out := serve Demo.platform Demo.env PostLogin Demo.alice_login Demo.store in
  exists u,
    head (List.filter
            (fun r => sql_eq Demo.platform (cell r "email")
                        (prop (body Demo.alice_login) "email"))
            (rows Demo.store)) = Some u
    /\ user out.1 = Some (delete "password" u)
    /\ delete "password" u !! "last_login" = u !! "last_login"
    /\ Forall2 (fun r r' => if selected Demo.platform (cell u "id") r
                            then r' = <["last_login" := VNum (db_now Demo.env)]> r
                            else r' = r)
         (rows Demo.store) (rows out.2).
Proof.
  apply (login_returns_prior_snapshot Demo.platform Demo.env Demo.alice_login Demo.store).
  - apply surjective_pairing.
  - vm_compute. reflexivity.
Defined.

(** The first login of the stored user: the response shows no previous
    login, the table holds the time of this one. *)
Example first_login_shows_null :
  let out := serve Demo.platform Demo.env PostLogin Demo.alice_login Demo.store in
  (fun u => cell u "last_login") <$> user out.1 = Some VNull
  /\ (fun r => cell r "last_login") <$> rows out.2 = [VNum 1700000000000].
Proof. split; vm_compute; reflexivity. Qed.

(** * Further properties of the routes *)

(** ** What a successful registration went through *)

Lemma check_passes optional body field validator msg :
  check optional body field validator msg = [] <->
  (optional && negb (defined (prop body field)) = true) \/ validator (prop body field) = true.
Proof.
  unfold check. cbv zeta.
  destruct (optional && negb (defined (prop body field)));
    destruct (validator (prop body field)); split; try done; try tauto.
  intros [H|H]; discriminate H.
Qed.

Lemma filter_nonempty {A} (f : A -> bool) (l : list A) (x : A) :
  x ∈ l -> f x = true -> exists y rest, List.filter f l = y :: rest.
Proof.
  intros Hin Hx.
  destruct (List.filter f l) as [|y rest] eqn:Hf; [|by eexists _, _].
  assert (In x (List.filter f l)) as Hmem
    by (apply filter_In; split; [by apply list_elem_of_In|done]).
  rewrite Hf in Hmem. destruct Hmem.
Qed.

Lemma filter_empty {A} (f : A -> bool) (l : list A) (x : A) :
  List.filter f l = [] -> x ∈ l -> f x = false.
Proof.
  intros Hf Hin. destruct (f x) eqn:Hx; [|done].
  destruct (filter_nonempty f l x Hin Hx) as (y & rest & H). congruence.
Qed.

Lemma register_inversion (P : Platform) env body st resp st' :
  post_register P env body st = (resp, st') ->
  code resp = 201 ->
  validate_register P body = []
  /\ List.filter (fun r => sql_eq P (cell r "email") (prop body "email")) (rows st) = []
  /\ exists pw,
      prop body "password" = VStr pw
      /\ let row := inserted_row (next_id st) (registration_cells P env body pw) in
         st' = {| rows := rows st ++ [row]; next_id := next_id st + 1 |}
         /\ resp = reply_user 201 "User registered successfully"
                     (strip_password
                        (head (List.filter
                                 (fun r => sql_eq P (cell r "id") (VNum (next_id st)))
                                 (rows st ++ [row])))).
Proof.
  unfold post_register, try_catch, register.
  destruct (validate_register P body); [|inversion 1; discriminate].
  unfold bind, select_by_email, select_by_id, select, hash, execute, ret, throw.
  destruct (existsb _ [prop body "email"]); [inversion 1; discriminate|].
  destruct (List.filter _ (rows st)); [|inversion 1; discriminate].
  destruct (prop body "password") as [| | | |pw]; try (inversion 1; discriminate).
  rewrite insert_binds.
  destruct (existsb _ _); [inversion 1; discriminate|].
  destruct (refuses _ _ _); [inversion 1; discriminate|].
  destruct (existsb _ _); [inversion 1; discriminate|].
  inversion 1; subst. intros _. do 2 (split; [done|]). by exists pw.
Qed.

(** X1. Registering with an e-mail some stored user already has is answered
    400 "Email already registered" once validation passes, whatever the other
    fields are, and leaves the table as it was. *)
Theorem duplicate_email_rejected
    (P : Platform) (env : Env) (body : Obj.t value) (st : Store) (r : Row) :
  validate_register P body = [] ->
  r ∈ rows st ->
  sql_eq P (cell r "email") (prop body "email") = true ->
  post_register P env body st = (reply 400 false "Email already registered", st).
Proof.
  intros Hvalid Hin Hmatch.
  unfold post_register, try_catch, register. rewrite Hvalid.
  unfold bind, select_by_email, select.
  assert (defined (prop body "email") = true) as Hdef.
  { destruct (prop body "email"), (cell r "email"); done. }
  cbn [existsb]. rewrite Hdef. cbn [negb orb].
  destruct (filter_nonempty (fun r => sql_eq P (cell r "email") (prop body "email"))
              _ r Hin Hmatch) as (y & rest & ->).
  reflexivity.
Qed.

Lemma duplicate_email_rejected_witness :
  post_register Demo.platform Demo.env
    [("first_name", VStr "Z"); ("last_name", VStr "Y"); ("email", VStr "a@b.com");
     ("password", VStr "another"); ("type", VStr "admin")] Demo.store
  = (reply 400 false "Email already registered", Demo.store).
Proof.
  apply (duplicate_email_rejected Demo.platform Demo.env _ Demo.store Demo.alice).
  - vm_compute. reflexivity.
  - apply list_elem_of_here.
  - vm_compute. reflexivity.
Defined.

(** X2. The row a successful registration appends has the counter's value as
    id, the client's first_name, last_name, email and type as mysql2 sends
    them (a boolean as 1 or 0), the bcrypt digest of the password (which was
    a string) and never the password itself, lang and avatar likewise or
    ["en"] and [""] when the body has no such key, both timestamps at the
    server's time and no last login; the counter moves by one. *)
Theorem registration_stores_client_fields
    (P : Platform) (env : Env) (body : Obj.t value) (st : Store)
    (resp : response) (st' : Store) :
  post_register P env body st = (resp, st') ->
  code resp = 201 ->
  exists pw row,
    prop body "password" = VStr pw
    /\ rows st' = rows st ++ [row]
    /\ next_id st' = next_id st + 1
    /\ row !! "id" = Some (VNum (next_id st))
    /\ (forall k, k ∈ ["first_name"; "last_name"; "email"; "type"] ->
                  row !! k = Some (to_cell (prop body k)))
    /\ row !! "password" = Some (VStr (bcrypt_hash P (salt env) pw))
    /\ row !! "lang" = Some (to_cell (prop_or body "lang" (VStr "en")))
    /\ row !! "avatar" = Some (to_cell (prop_or body "avatar" (VStr "")))
    /\ (Obj.get body "lang" = None -> row !! "lang" = Some (VStr "en"))
    /\ (Obj.get body "avatar" = None -> row !! "avatar" = Some (VStr ""))
    /\ row !! "created_at" = Some (VNum (db_now env))
    /\ row !! "updated_at" = Some (VNum (db_now env))
    /\ row !! "last_login" = Some VNull.
Proof.
  intros Hrun Hcode.
  destruct (register_inversion _ _ _ _ _ _ Hrun Hcode) as (_ & _ & pw & Hpw & -> & _).
  exists pw, (inserted_row (next_id st) (registration_cells P env body pw)).
  do 3 (split; [done|]).
  unfold inserted_row, assign, registration_cells. cbn [fold_left fst snd].
  split; [by simplify_map_eq|]. split.
  { intros k Hk. repeat (apply elem_of_cons in Hk as [->|Hk]; [by simplify_map_eq|]).
    by apply elem_of_nil in Hk. }
  do 3 (split; [by simplify_map_eq|]).
  split; [|split].
  - intros Hget. simplify_map_eq. unfold prop_or, prop. by rewrite Hget.
  - intros Hget. simplify_map_eq. unfold prop_or, prop. by rewrite Hget.
  - repeat split; by simplify_map_eq.
Qed.

Lemma registration_stores_client_fields_witness :
  let out := post_register Demo.platform Demo.env (body Demo.carol_signup) Demo.store in
  exists pw row,
    prop (body Demo.carol_signup) "password" = VStr pw
    /\ rows out.2 = rows Demo.store ++ [row]
    /\ next_id out.2 = next_id Demo.store + 1
    /\ row !! "id" = Some (VNum (next_id Demo.store))
    /\ (forall k, k ∈ ["first_name"; "last_name"; "email"; "type"] ->
                  row !! k = Some (to_cell (prop (body Demo.carol_signup) k)))
    /\ row !! "password" = Some (VStr (bcrypt_hash Demo.platform (salt Demo.env) pw))
    /\ row !! "lang" = Some (to_cell (prop_or (body Demo.carol_signup) "lang" (VStr "en")))
    /\ row !! "avatar" = Some (to_cell (prop_or (body Demo.carol_signup) "avatar" (VStr "")))
    /\ (Obj.get (body Demo.carol_signup) "lang" = None -> row !! "lang" = Some (VStr "en"))
    /\ (Obj.get (body Demo.carol_signup) "avatar" = None -> row !! "avatar" = Some (VStr ""))
    /\ row !! "created_at" = Some (VNum (db_now Demo.env))
    /\ row !! "updated_at" = Some (VNum (db_now Demo.env))
    /\ row !! "last_login" = Some VNull.
Proof.
  apply (registration_stores_client_fields Demo.platform Demo.env
           (body Demo.carol_signup) Demo.store
           (post_register Demo.platform Demo.env (body Demo.carol_signup) Demo.store).1).
  - apply surjective_pairing.
  - vm_compute. reflexivity.
Defined.

Lemma registered_row_cells (P : Platform) env body pw id :
  let row := inserted_row id (registration_cells P env body pw) in
  row !! "id" = Some (VNum id)
  /\ row !! "email" = Some (to_cell (prop body "email"))
  /\ row !! "password" = Some (VStr (bcrypt_hash P (salt env) pw))
  /\ row !! "is_active" = Some (VNum 1)
  /\ row !! "is_login_enable" = Some (VNum 1).
Proof.
  cbv zeta. unfold inserted_row, assign, registration_cells. cbn [fold_left fst snd].
  repeat split. all: by simplify_map_eq.
Qed.

Lemma long_enough_not_empty (P : Platform) v :
  isLength_min P 6 v = true -> notEmpty P v = true.
Proof.
  unfold isLength_min, notEmpty. intros H%Nat.leb_le.
  destruct (validator_string P v); [simpl in H; lia|reflexivity].
Qed.

(** Whoever passed the register validation passes the login validation with
    the same e-mail and password. *)
Lemma register_valid_login_valid (P : Platform) body body' :
  validate_register P body = [] ->
  prop body' "email" = prop body "email" ->
  prop body' "password" = prop body "password" ->
  validate_login P body' = [].
Proof.
  unfold validate_register, validate_login.
  intros H Hsame_email Hsame_pw.
  apply app_eq_nil in H as [_ H]. apply app_eq_nil in H as [_ H].
  apply app_eq_nil in H as [Hemail H]. apply app_eq_nil in H as [Hpw _].
  apply check_passes in Hemail as [Hemail|Hemail]; [done|].
  apply check_passes in Hpw as [Hpw|Hpw]; [done|].
  assert (check false body' "email" (fun v => isEmail P (validator_string P v))
            "Valid email is required" = []) as ->
    by (apply check_passes; right; by rewrite Hsame_email).
  assert (check false body' "password" (notEmpty P) "Password is required" = []) as ->
    by (apply check_passes; right; rewrite Hsame_pw; by apply long_enough_not_empty).
  done.
Qed.

(** X3. Registering and then logging in with the same e-mail and password
    succeeds: the login is answered 200 with the user just created, without
    the password.  It takes an e-mail the collation holds equal to itself, a
    bcrypt that accepts the password against its own digest, and a server
    that does not refuse the [last_login] update. *)
Theorem register_then_login
    (P : Platform) (env env' : Env) (body body' : Obj.t value) (st : Store)
    (resp : response) (st' : Store) (e : string) :
  post_register P env body st = (resp, st') ->
  code resp = 201 ->
  prop body "email" = VStr e ->
  collate P e e = true ->
  (forall pw, prop body "password" = VStr pw ->
              bcrypt_compare P pw (bcrypt_hash P (salt env) pw) = true) ->
  prop body' "email" = prop body "email" ->
  prop body' "password" = prop body "password" ->
  refuses P st' (Update [("last_login", NowCall)] [VNum (next_id st)]) = false ->
  let out := post_login P env' body' st' in
  code out.1 = 200
  /\ exists u, user out.1 = Some u
               /\ u !! "id" = Some (VNum (next_id st))
               /\ u !! "email" = Some (VStr e)
               /\ u !! "password" = None.
Proof.
  intros Hrun Hcode He Hrefl Hbcrypt Hsame_email Hsame_pw Hrefuses.
  destruct (register_inversion _ _ _ _ _ _ Hrun Hcode)
    as (Hvalid & Hnone & pw & Hpw & Hst & _).
  cbv zeta in Hst.
  destruct (registered_row_cells P env body pw (next_id st))
    as (Hid & Hmail & Hdigest & Hactive & Henabled).
  set (row := inserted_row (next_id st) (registration_cells P env body pw)) in *.
  rewrite He in Hmail, Hnone. cbn [to_cell] in Hmail.
  assert (List.filter (fun r => sql_eq P (cell r "email") (VStr e)) (rows st') = [row])
    as Hfound.
  { rewrite Hst. cbn [rows]. rewrite List.filter_app, Hnone. cbn [List.filter app].
    unfold cell. rewrite Hmail. cbn [default from_option id sql_eq]. by rewrite Hrefl. }
  unfold post_login, try_catch, login.
  rewrite (register_valid_login_valid P body body' Hvalid Hsame_email Hsame_pw).
  rewrite Hsame_email, Hsame_pw, He, Hpw.
  unfold bind, select_by_email, select. cbn [existsb defined negb orb].
  rewrite Hfound. unfold cell. rewrite Hactive, Henabled, Hdigest, Hid.
  cbn [default from_option id truthy negb Z.eqb]. unfold compare, ret.
  rewrite (Hbcrypt pw Hpw). cbn [negb]. unfold execute.
  cbn [existsb defined negb orb bind_params]. rewrite Hrefuses.
  cbn [fst code reply_user user]. split; [done|].
  exists (strip_password (Some row)). split; [done|].
  unfold strip_password. cbn [default].
  rewrite !lookup_delete_ne by done. rewrite lookup_delete_eq. done.
Qed.

Lemma register_then_login_witness :
  let reg := post_register Demo.platform Demo.env (body Demo.carol_signup) Demo.store in
  let out := post_login Demo.platform Demo.env Demo.carol_login reg.2 in
  code out.1 = 200
  /\ exists u, user out.1 = Some u
               /\ u !! "id" = Some (VNum (next_id Demo.store))
               /\ u !! "email" = Some (VStr "c@d.com")
               /\ u !! "password" = None.
Proof.
  apply (register_then_login Demo.platform Demo.env Demo.env (body Demo.carol_signup)
           Demo.carol_login Demo.store
           (post_register Demo.platform Demo.env (body Demo.carol_signup) Demo.store).1).
  - apply surjective_pairing.
  - vm_compute. reflexivity.
  - reflexivity.
  - reflexivity.
  - intros pw [= <-]. vm_compute. reflexivity.
  - reflexivity.
  - reflexivity.
  - reflexivity.
Defined.

(** ** Invariants of the table under registration *)

Lemma filter_none {A} (f : A -> bool) (l : list A) :
  (forall x, x ∈ l -> f x = false) -> List.filter f l = [].
Proof.
  induction l as [|x l IH]; intros H; [done|]. simpl.
  rewrite (H x) by left. apply IH. intros y Hy. apply H. by right.
Qed.

Lemma sql_eq_sym (P : Platform) a b :
  (forall s t, collate P s t = collate P t s) -> sql_eq P a b = sql_eq P b a.
Proof. intros Hsym. destruct a, b; simpl; try done. apply Z.eqb_sym. Qed.

(** X4. On a table whose ids are all below the counter, a successful
    registration answers with the very row it appended, without the
    password, and the ids stay below the counter. *)
Theorem register_returns_created_row
    (P : Platform) (env : Env) (body : Obj.t value) (st : Store)
    (resp : response) (st' : Store) :
  fresh_ids st ->
  post_register P env body st = (resp, st') ->
  code resp = 201 ->
  fresh_ids st'
  /\ exists row, rows st' = rows st ++ [row]
                 /\ user resp = Some (delete "password" row).
Proof.
  intros Hfresh Hrun Hcode.
  destruct (register_inversion _ _ _ _ _ _ Hrun Hcode) as (_ & _ & pw & _ & Hst & Hresp).
  cbv zeta in Hst, Hresp.
  destruct (registered_row_cells P env body pw (next_id st)) as (Hid & _).
  set (row := inserted_row (next_id st) (registration_cells P env body pw)) in *.
  split.
  - intros r. rewrite Hst. cbn [rows next_id]. rewrite elem_of_app, list_elem_of_singleton.
    intros [Hr| ->].
    + destruct (Hfresh r Hr) as (i & Hi & Hlt). exists i. split; [done|lia].
    + exists (next_id st). unfold cell. rewrite Hid. split; [done|lia].
  - exists row. split; [by rewrite Hst|]. rewrite Hresp. cbn [user reply_user].
    rewrite List.filter_app, filter_none.
    + cbn [List.filter app]. unfold cell at 1. rewrite Hid.
      cbn [default from_option id sql_eq]. by rewrite Z.eqb_refl.
    + intros r Hr. destruct (Hfresh r Hr) as (i & -> & Hlt). simpl. lia.
Qed.

Lemma register_returns_created_row_witness :
  let out := post_register Demo.platform Demo.env (body Demo.carol_signup) Demo.store in
  fresh_ids out.2
  /\ exists row, rows out.2 = rows Demo.store ++ [row]
                 /\ user out.1 = Some (delete "password" row).
Proof.
  apply (register_returns_created_row Demo.platform Demo.env (body Demo.carol_signup)
           Demo.store).
  - intros r ->%list_elem_of_singleton. exists 1. split; reflexivity.
  - apply surjective_pairing.
  - vm_compute. reflexivity.
Defined.

(** X5. Registration keeps e-mails distinct: when no two stored rows have
    equal e-mails and the collation is symmetric, the same holds after a
    successful registration with a string e-mail. *)
Theorem register_keeps_emails_distinct
    (P : Platform) (env : Env) (body : Obj.t value) (st : Store)
    (resp : response) (st' : Store) (e : string) :
  emails_distinct P st ->
  (forall s t, collate P s t = collate P t s) ->
  prop body "email" = VStr e ->
  post_register P env body st = (resp, st') ->
  code resp = 201 ->
  emails_distinct P st'.
Proof.
  intros Hdistinct Hsym He Hrun Hcode.
  destruct (register_inversion _ _ _ _ _ _ Hrun Hcode) as (_ & Hnone & pw & _ & Hst & _).
  cbv zeta in Hst.
  destruct (registered_row_cells P env body pw (next_id st)) as (_ & Hmail & _).
  set (row := inserted_row (next_id st) (registration_cells P env body pw)) in *.
  rewrite He in Hmail, Hnone. cbn [to_cell] in Hmail.
  assert (cell row "email" = VStr e) as Hrow by (unfold cell; by rewrite Hmail).
  assert (forall r, r ∈ rows st -> sql_eq P (cell r "email") (VStr e) = false) as Hold.
  { intros r Hr.
    apply (filter_empty (fun r => sql_eq P (cell r "email") (VStr e)) _ r Hnone Hr). }
  rewrite Hst. intros i j r1 r2. cbn [rows].
  rewrite !lookup_app_Some, !list_lookup_singleton_Some.
  intros [H1|(Hi & Hi0 & <-)] [H2|(Hj & Hj0 & <-)] Heq.
  - by apply (Hdistinct i j r1 r2).
  - rewrite Hrow in Heq. rewrite Hold in Heq; [done|].
    apply list_elem_of_lookup. by exists i.
  - rewrite Hrow, (sql_eq_sym P _ _ Hsym) in Heq. rewrite Hold in Heq; [done|].
    apply list_elem_of_lookup. by exists j.
  - lia.
Qed.

Lemma register_keeps_emails_distinct_witness :
  emails_distinct Demo.platform
    (post_register Demo.platform Demo.env (body Demo.carol_signup) Demo.store).2.
Proof.
  apply (register_keeps_emails_distinct Demo.platform Demo.env (body Demo.carol_signup)
           Demo.store
           (post_register Demo.platform Demo.env (body Demo.carol_signup) Demo.store).1
           _ "c@d.com").
  - intros [|i] [|j] r1 r2; simpl; try done; by rewrite ?lookup_nil.
  - intros s t. apply String.eqb_sym.
  - reflexivity.
  - apply surjective_pairing.
  - vm_compute. reflexivity.
Defined.

(** ** Who gets past the gate and the login *)

Lemma sql_eq_one P v : sql_eq P v (VNum 1) = true -> v = VNum 1.
Proof. destruct v as [| | |n|]; simpl; try done. by intros ->%Z.eqb_eq. Qed.

Lemma nonempty_Some s : nonempty (Some s) = true <-> s <> "".
Proof. simpl. destruct (String.eqb_spec s ""); split; intros; try done; congruence. Qed.

(** X6. With a header of the Basic scheme whose credentials have a
    non-empty e-mail and password piece, the gate hands the route the first
    stored row with that e-mail and [is_active = 1], provided its login is
    enabled, its stored password is a string and bcrypt accepts the
    presented password against it; the table is not touched on the way. *)
Theorem gate_admits_verified_user
    (P : Platform) (h : string) (next : Row -> Store -> response * Store)
    (st : Store) (u : Row) (rest : list Row) (p digest : string) :
  startsWith "Basic " h = true ->
  presented_email P h <> "" ->
  presented_password P h = Some p ->
  p <> "" ->
  List.filter (fun r => sql_eq P (cell r "email") (VStr (presented_email P h))
                        && sql_eq P (cell r "is_active") (VNum 1)) (rows st)
  = u :: rest ->
  truthy (cell u "is_login_enable") = true ->
  cell u "password" = VStr digest ->
  bcrypt_compare P p digest = true ->
  authenticateUser P (Some h) next st = next u st.
Proof.
  intros Hprefix Hemail Hpw Hp Hfound Henabled Hdigest Hok.
  unfold authenticateUser. rewrite Hprefix.
  destruct (String.eqb_spec h "") as [->|_]; [done|]. cbn [orb negb].
  rewrite (authenticate_pieces _ _ Hprefix). cbv zeta.
  fold (presented_email P h). fold (presented_password P h). rewrite Hpw.
  rewrite (proj2 (nonempty_Some _) Hemail), (proj2 (nonempty_Some _) Hp).
  cbn [negb orb default from_option id].
  unfold bind, select_active_by_email, select. cbn [existsb defined negb orb].
  rewrite Hfound, Henabled, Hdigest. cbn [negb]. unfold compare, ret.
  by rewrite Hok.
Qed.

Lemma gate_admits_verified_user_witness :
  get_profile Demo.platform (Some Demo.alice_header) Demo.store
  = (reply_user 200 "Profile retrieved successfully" (strip_password (Some Demo.alice)),
     Demo.store).
Proof.
  unfold get_profile.
  apply (gate_admits_verified_user Demo.platform Demo.alice_header
           (fun user st =>
              (reply_user 200 "Profile retrieved successfully"
                 (strip_password (Some user)), st))
           Demo.store Demo.alice [] "secret1" "$salt$secret1").
  - reflexivity.
  - vm_compute. discriminate.
  - vm_compute. reflexivity.
  - discriminate.
  - assert (presented_email Demo.platform Demo.alice_header = "a@b.com") as ->
      by (vm_compute; reflexivity).
    cbn [rows Demo.store List.filter].
    assert (sql_eq Demo.platform (cell Demo.alice "email") (VStr "a@b.com")
            && sql_eq Demo.platform (cell Demo.alice "is_active") (VNum 1) = true) as ->
      by (vm_compute; reflexivity).
    reflexivity.
  - vm_compute. reflexivity.
  - vm_compute. reflexivity.
  - vm_compute. reflexivity.
Defined.

(** X7. A profile is returned only to a verified caller: a 200 from
    [GET /api/profile] means the header is of the Basic scheme and the user
    in the response is a stored row, without its password, whose e-mail
    equals the presented one, whose [is_active] is 1, whose login is
    enabled and against whose stored digest bcrypt accepted the presented
    password piece; the table is unchanged. *)
Theorem profile_only_for_verified_user
    (P : Platform) (authHeader : option string) (st : Store)
    (resp : response) (st' : Store) :
  get_profile P authHeader st = (resp, st') ->
  code resp = 200 ->
  exists h u p digest,
    authHeader = Some h
    /\ startsWith "Basic " h = true
    /\ u ∈ rows st
    /\ sql_eq P (cell u "email") (VStr (presented_email P h)) = true
    /\ cell u "is_active" = VNum 1
    /\ truthy (cell u "is_login_enable") = true
    /\ presented_password P h = Some p
    /\ cell u "password" = VStr digest
    /\ bcrypt_compare P p digest = true
    /\ user resp = Some (delete "password" u)
    /\ st' = st.
Proof.
  unfold get_profile, authenticateUser.
  destruct authHeader as [h|]; [|inversion 1; discriminate].
  destruct (startsWith "Basic " h) eqn:Hprefix;
    [|rewrite orb_true_r; inversion 1; discriminate].
  destruct (String.eqb h ""); [inversion 1; discriminate|]. cbn [orb negb].
  rewrite (authenticate_pieces _ _ Hprefix). cbv zeta.
  fold (presented_email P h). fold (presented_password P h).
  destruct (presented_password P h) as [p|] eqn:Hpw;
    [|rewrite orb_true_r; inversion 1; discriminate].
  destruct (_ || _); [inversion 1; discriminate|].
  unfold bind, select_active_by_email, select. cbn [existsb defined negb orb].
  cbn [default from_option id].
  destruct (List.filter _ (rows st)) as [|u rest] eqn:Hfound; [inversion 1; discriminate|].
  destruct (truthy (cell u "is_login_enable")) eqn:Henabled;
    [|inversion 1; discriminate]. cbn [negb].
  unfold compare, ret, throw.
  destruct (cell u "password") as [| | | |digest] eqn:Hdigest;
    try (inversion 1; discriminate).
  destruct (bcrypt_compare P p digest) eqn:Hok; [|inversion 1; discriminate].
  cbn [negb]. inversion 1; subst. intros _.
  apply filter_first in Hfound as [Hin [Hmail Hactive%sql_eq_one]%andb_prop].
  exists h, u, p, digest. repeat split; done.
Qed.

Lemma profile_only_for_verified_user_witness :
  exists h u p digest,
    Some Demo.alice_header = Some h
    /\ startsWith "Basic " h = true
    /\ u ∈ rows Demo.store
    /\ sql_eq Demo.platform (cell u "email") (VStr (presented_email Demo.platform h)) = true
    /\ cell u "is_active" = VNum 1
    /\ truthy (cell u "is_login_enable") = true
    /\ presented_password Demo.platform h = Some p
    /\ cell u "password" = VStr digest
    /\ bcrypt_compare Demo.platform p digest = true
    /\ user (get_profile Demo.platform (Some Demo.alice_header) Demo.store).1
       = Some (delete "password" u)
    /\ (get_profile Demo.platform (Some Demo.alice_header) Demo.store).2 = Demo.store.
Proof.
  apply (profile_only_for_verified_user Demo.platform (Some Demo.alice_header) Demo.store
           (get_profile Demo.platform (Some Demo.alice_header) Demo.store).1).
  - apply surjective_pairing.
  - vm_compute. reflexivity.
Defined.

(** X8. The login route does not tell an unknown e-mail from a wrong
    password: once validation passes, a request whose e-mail matches no row
    and a request whose password bcrypt rejects for the (active, enabled)
    row found get the same 401 response, and the table is unchanged. *)
Theorem login_failures_look_alike
    (P : Platform) (env : Env) (body : Obj.t value) (st : Store) :
  validate_login P body = [] ->
  defined (prop body "email") = true ->
  let users := List.filter (fun r => sql_eq P (cell r "email") (prop body "email"))
                 (rows st) in
  users = []
  \/ (exists u rest p digest,
         users = u :: rest
         /\ truthy (cell u "is_active") = true
         /\ truthy (cell u "is_login_enable") = true
         /\ prop body "password" = VStr p
         /\ cell u "password" = VStr digest
         /\ bcrypt_compare P p digest = false) ->
  post_login P env body st = (reply 401 false "Invalid email or password", st).
Proof.
  intros Hvalid Hdef users Hcase.
  unfold post_login, try_catch, login. rewrite Hvalid.
  unfold bind, select_by_email, select. cbn [existsb]. rewrite Hdef. cbn [negb orb].
  fold users.
  destruct Hcase as [->|(u & rest & p & digest & -> & Ha & He & Hp & Hd & Hbad)]; [done|].
  rewrite Ha, He, Hp, Hd. cbn [negb]. unfold compare, ret. by rewrite Hbad.
Qed.

Lemma login_failures_look_alike_witness :
  post_login Demo.platform Demo.env
    [("email", VStr "a@b.com"); ("password", VStr "wrong")] Demo.store
  = (reply 401 false "Invalid email or password", Demo.store)
  /\ post_login Demo.platform Demo.env
       [("email", VStr "nobody@b.com"); ("password", VStr "secret1")] Demo.store
     = (reply 401 false "Invalid email or password", Demo.store).
Proof.
  split.
  - apply (login_failures_look_alike Demo.platform Demo.env
             [("email", VStr "a@b.com"); ("password", VStr "wrong")] Demo.store).
    + vm_compute. reflexivity.
    + reflexivity.
    + right. exists Demo.alice, [], "wrong", "$salt$secret1".
      split; [|repeat split; vm_compute; reflexivity].
      cbn [rows Demo.store List.filter].
      assert (sql_eq Demo.platform (cell Demo.alice "email")
                (prop [("email", VStr "a@b.com"); ("password", VStr "wrong")] "email")
              = true) as -> by (vm_compute; reflexivity).
      reflexivity.
  - apply (login_failures_look_alike Demo.platform Demo.env
             [("email", VStr "nobody@b.com"); ("password", VStr "secret1")] Demo.store).
    + vm_compute. reflexivity.
    + reflexivity.
    + left. cbn [rows Demo.store List.filter].
      assert (sql_eq Demo.platform (cell Demo.alice "email")
                (prop [("email", VStr "nobody@b.com"); ("password", VStr "secret1")] "email")
              = false) as -> by (vm_compute; reflexivity).
      reflexivity.
Defined.

(** X9. Nor does the gate: with well-formed credentials, no active row for
    the e-mail and a password bcrypt rejects for the (enabled) row found get
    the same 401 "Invalid credentials", the route is not run and the table
    is unchanged. *)
Theorem gate_failures_look_alike
    (P : Platform) (h : string) (next : Row -> Store -> response * Store)
    (st : Store) (p : string) :
  startsWith "Basic " h = true ->
  presented_email P h <> "" ->
  presented_password P h = Some p ->
  p <> "" ->
  let users :=
    List.filter (fun r => sql_eq P (cell r "email") (VStr (presented_email P h))
                          && sql_eq P (cell r "is_active") (VNum 1)) (rows st) in
  users = []
  \/ (exists u rest digest,
         users = u :: rest
         /\ truthy (cell u "is_login_enable") = true
         /\ cell u "password" = VStr digest
         /\ bcrypt_compare P p digest = false) ->
  authenticateUser P (Some h) next st = (reply 401 false "Invalid credentials", st).
Proof.
  intros Hprefix Hemail Hpw Hp users Hcase.
  unfold authenticateUser. rewrite Hprefix.
  destruct (String.eqb_spec h "") as [->|_]; [done|]. cbn [orb negb].
  rewrite (authenticate_pieces _ _ Hprefix). cbv zeta.
  fold (presented_email P h). fold (presented_password P h). rewrite Hpw.
  rewrite (proj2 (nonempty_Some _) Hemail), (proj2 (nonempty_Some _) Hp).
  cbn [negb orb default from_option id].
  unfold bind, select_active_by_email, select. cbn [existsb defined negb orb].
  fold users.
  destruct Hcase as [->|(u & rest & digest & -> & He & Hd & Hbad)]; [done|].
  rewrite He, Hd. cbn [negb]. unfold compare, ret. by rewrite Hbad.
Qed.

Lemma gate_failures_look_alike_witness :
  get_profile Demo.platform (Some Demo.colon_header) Demo.colon_store
  = (reply 401 false "Invalid credentials", Demo.colon_store).
Proof.
  unfold get_profile.
  apply (gate_failures_look_alike Demo.platform Demo.colon_header
           (fun user st =>
              (reply_user 200 "Profile retrieved successfully"
                 (strip_password (Some user)), st))
           Demo.colon_store "pass").
  - reflexivity.
  - vm_compute. discriminate.
  - vm_compute. reflexivity.
  - discriminate.
  - right. exists Demo.alice_colon, [], "$salt$pass:word".
    split; [|repeat split; vm_compute; reflexivity].
    assert (presented_email Demo.platform Demo.colon_header = "a@b.com") as ->
      by (vm_compute; reflexivity).
    cbn [rows Demo.colon_store List.filter].
    assert (sql_eq Demo.platform (cell Demo.alice_colon "email") (VStr "a@b.com")
            && sql_eq Demo.platform (cell Demo.alice_colon "is_active") (VNum 1) = true)
      as -> by (vm_compute; reflexivity).
    reflexivity.
Defined.

(** X10. A login is answered 200 only when validation passed, the first row
    with the e-mail is active and enabled, the supplied password and the
    stored digest are strings and bcrypt accepted the one against the
    other; the counter of ids is unchanged. *)
Theorem login_only_for_verified_user
    (P : Platform) (env : Env) (body : Obj.t value) (st : Store)
    (resp : response) (st' : Store) :
  post_login P env body st = (resp, st') ->
  code resp = 200 ->
  validate_login P body = []
  /\ next_id st' = next_id st
  /\ exists u rest p digest,
      List.filter (fun r => sql_eq P (cell r "email") (prop body "email")) (rows st)
      = u :: rest
      /\ truthy (cell u "is_active") = true
      /\ truthy (cell u "is_login_enable") = true
      /\ prop body "password" = VStr p
      /\ cell u "password" = VStr digest
      /\ bcrypt_compare P p digest = true.
Proof.
  unfold post_login, try_catch, login.
  destruct (validate_login P body); [|inversion 1; discriminate].
  unfold bind, select_by_email, select.
  destruct (existsb _ _); [inversion 1; discriminate|].
  destruct (List.filter _ (rows st)) as [|u rest] eqn:Hfound;
    [inversion 1; discriminate|].
  destruct (truthy (cell u "is_active")) eqn:Hactive; [|inversion 1; discriminate].
  destruct (truthy (cell u "is_login_enable")) eqn:Henabled;
    [|inversion 1; discriminate].
  cbn [negb]. unfold compare, ret, throw.
  destruct (prop body "password") as [| | | |p] eqn:Hp; try (inversion 1; discriminate).
  destruct (cell u "password") as [| | | |digest] eqn:Hdigest;
    try (inversion 1; discriminate).
  destruct (bcrypt_compare P p digest) eqn:Hok; [|inversion 1; discriminate].
  cbn [negb]. unfold execute.
  destruct (existsb _ _); [inversion 1; discriminate|].
  destruct (bind_params _ _ _) as [[asg [|id [|]]]|]; try (inversion 1; discriminate).
  destruct (refuses _ _ _); [inversion 1; discriminate|].
  inversion 1; subst. intros _. do 2 (split; [done|]).
  exists u, rest, p, digest. repeat split; done.
Qed.

Lemma login_only_for_verified_user_witness :
  let out := post_login Demo.platform Demo.env (body Demo.alice_login) Demo.store in
  validate_login Demo.platform (body Demo.alice_login) = []
  /\ next_id out.2 = next_id Demo.store
  /\ exists u rest p digest,
      List.filter (fun r => sql_eq Demo.platform (cell r "email")
                              (prop (body Demo.alice_login) "email")) (rows Demo.store)
      = u :: rest
      /\ truthy (cell u "is_active") = true
      /\ truthy (cell u "is_login_enable") = true
      /\ prop (body Demo.alice_login) "password" = VStr p
      /\ cell u "password" = VStr digest
      /\ bcrypt_compare Demo.platform p digest = true.
Proof.
  apply (login_only_for_verified_user Demo.platform Demo.env (body Demo.alice_login)
           Demo.store
           (post_login Demo.platform Demo.env (body Demo.alice_login) Demo.store).1).
  - apply surjective_pairing.
  - vm_compute. reflexivity.
Defined.

(** ** What the routes do to the table *)

(** How a route may leave the table. *)
Lemma register_effect (P : Platform) env body st :
  let out := post_register P env body st in
  (status out.1 = false /\ code out.1 <> 200 /\ code out.1 <> 201 /\ out.2 = st)
  \/ (status out.1 = true /\ code out.1 = 201
      /\ exists row, out.2 = {| rows := rows st ++ [row]; next_id := next_id st + 1 |}).
Proof.
  cbv zeta. unfold post_register, try_catch, register.
  destruct (validate_register P body); [|by left].
  unfold bind, select_by_email, select_by_id, select, hash, execute, ret, throw.
  destruct (existsb _ [prop body "email"]); [by left|].
  destruct (List.filter _ (rows st)); [|by left].
  destruct (prop body "password"); try (by left).
  rewrite insert_binds.
  destruct (existsb _ _); [by left|].
  destruct (refuses _ _ _); [by left|].
  cbn [existsb defined negb orb]. right. cbn [fst snd]. do 2 (split; [done|]).
  by eexists.
Qed.

Lemma login_effect (P : Platform) env body st :
  let out := post_login P env body st in
  (status out.1 = false /\ code out.1 <> 200 /\ code out.1 <> 201 /\ out.2 = st)
  \/ (status out.1 = true /\ code out.1 = 200
      /\ exists id,
          rows out.2 = map (fun r => if sql_eq P (cell r "id") id
                                     then <["last_login" := VNum (db_now env)]> r
                                     else r) (rows st)).
Proof.
  cbv zeta. unfold post_login, try_catch, login.
  destruct (validate_login P body); [|by left].
  unfold bind, select_by_email, select.
  destruct (existsb _ _); [by left|].
  destruct (List.filter _ (rows st)) as [|u rest]; [by left|].
  destruct (truthy (cell u "is_active")); [|by left].
  destruct (truthy (cell u "is_login_enable")); [|by left].
  cbn [negb]. unfold compare, ret, throw.
  destruct (prop body "password"); try (by left).
  destruct (cell u "password"); try (by left).
  destruct (bcrypt_compare P _ _); [|by left].
  cbn [negb]. unfold execute.
  destruct (existsb _ _); [by left|].
  change (plain [("last_login", NowCall)] [cell u "id"]) with true.
  cbn [bind_params].
  destruct (refuses _ _ _); [by left|].
  right. cbn [fst snd rows]. do 2 (split; [done|]). by eexists.
Qed.

Lemma update_effect (P : Platform) env u body st :
  let out := try_catch (update P env u body) reply_internal st in
  (status out.1 = false /\ code out.1 <> 200 /\ code out.1 <> 201 /\ out.2 = st)
  \/ (status out.1 = true /\ code out.1 = 200).
Proof.
  cbv zeta. unfold try_catch, update.
  destruct (validate_update P body); [|by left].
  destruct (collect_all body).2; [by left|].
  unfold bind, execute, select_by_id, select, ret.
  set (stmt := finish_update body (cell u "id") (collect_all body)).
  destruct (existsb _ stmt.2) eqn:Hdef; [by left|].
  assert (existsb (fun v => negb (defined v)) [cell u "id"] = false) as Hid.
  { subst stmt. rewrite finish_update_sent in Hdef. cbn [snd] in Hdef.
    rewrite existsb_app in Hdef. by apply orb_false_iff in Hdef as [_ ->]. }
  destruct (plain stmt.1 stmt.2).
  - destruct (bind_params _ _ _) as [[asg [|id [|]]]|] eqn:Hbind; try (by left).
    destruct (refuses _ _ _); [by left|].
    rewrite Hid. by right.
  - destruct (foreign P st _ _); [|by left].
    rewrite Hid. by right.
Qed.

Lemma authenticate_rejected (P : Platform) h st r st' :
  authenticate P h st = Returned (Rejected r) st' ->
  status r = false /\ (code r = 401 \/ code r = 403) /\ user r = None.
Proof.
  unfold authenticate. run_handler; intros; simplify_eq; cbn; tauto.
Qed.

Lemma gate_effect (P : Platform) authHeader next st :
  let out := authenticateUser P authHeader next st in
  (status out.1 = false /\ code out.1 <> 200 /\ code out.1 <> 201 /\ out.2 = st)
  \/ (exists u, u ∈ rows st /\ out = next u st).
Proof.
  cbv zeta. unfold authenticateUser.
  destruct authHeader as [h|]; [|by left].
  destruct (_ || _); [by left|].
  pose proof (authenticate_outcome P h st) as Hout.
  destruct (authenticate P h st) as [[r|u] st1|ex st1] eqn:Hauth.
  - left. destruct Hout as [-> _].
    destruct (authenticate_rejected _ _ _ _ _ Hauth) as (Hs & Hc & _).
    cbn [fst snd]. repeat split; try done; destruct Hc as [-> | ->]; done.
  - right. destruct Hout as [-> Hin]. by exists u.
  - left. by subst.
Qed.

(** X11. A request that is turned down changes nothing: on every route, a
    response with code 400, 401 or 403 leaves the table exactly as it was
    (these answers are given before any statement that writes); and
    [status] is true exactly for the codes 200 and 201. *)
Theorem refusals_change_nothing
    (P : Platform) (env : Env) (r : route) (req : request) (st : Store) :
  let out := serve P env r req st in
  (status out.1 = true <-> code out.1 = 200 \/ code out.1 = 201)
  /\ (code out.1 = 400 \/ code out.1 = 401 \/ code out.1 = 403 -> out.2 = st).
Proof.
  assert (forall out : response * Store,
             (status out.1 = false /\ code out.1 <> 200 /\ code out.1 <> 201 /\ out.2 = st)
             \/ (status out.1 = true /\ (code out.1 = 200 \/ code out.1 = 201)) ->
             (status out.1 = true <-> code out.1 = 200 \/ code out.1 = 201)
             /\ (code out.1 = 400 \/ code out.1 = 401 \/ code out.1 = 403 -> out.2 = st))
    as Hshape.
  { intros out [(Hs & H200 & H201 & Hst)|(Hs & Hc)]; rewrite Hs.
    - split; [|done]. split; [done|tauto].
    - split; [split; [by intros _|done]|]. lia. }
  cbv zeta. apply Hshape. destruct r; cbn [serve].
  - destruct (register_effect P env (body req) st) as [H|(Hs & Hc & _)]; [by left|].
    right. tauto.
  - destruct (login_effect P env (body req) st) as [H|(Hs & Hc & _)]; [by left|].
    right. tauto.
  - unfold get_profile.
    destruct (gate_effect P (authorization req)
                (fun user st =>
                   (reply_user 200 "Profile retrieved successfully"
                      (strip_password (Some user)), st)) st)
      as [H|(u & _ & ->)]; [by left|].
    right. cbn. tauto.
  - unfold put_profile.
    destruct (gate_effect P (authorization req)
                (fun user => try_catch (update P env user (body req)) reply_internal) st)
      as [H|(u & _ & ->)]; [by left|].
    destruct (update_effect P env u (body req) st) as [H|(Hs & Hc)]; [by left|].
    right. tauto.
  - unfold post_logout.
    destruct (gate_effect P (authorization req)
                (fun _ st => (reply 200 true "Logged out successfully", st)) st)
      as [H|(u & _ & ->)]; [by left|].
    right. cbn. tauto.
Qed.

Lemma refusals_change_nothing_witness :
  (serve Demo.platform Demo.env PostLogin Demo.alice_login Demo.inactive_store).2
  = Demo.inactive_store.
Proof.
  apply (refusals_change_nothing Demo.platform Demo.env PostLogin Demo.alice_login
           Demo.inactive_store).
  right. right. vm_compute. reflexivity.
Defined.

(** X12. The routes that do not update a profile remove no user: the
    profile read and the logout leave the table exactly as it was; a login
    keeps every row, changing at most its [last_login]; a registration
    keeps every row and adds one at the end or none. *)
Theorem other_routes_keep_the_rows
    (P : Platform) (env : Env) (req : request) (st : Store) :
  (serve P env GetProfile req st).2 = st
  /\ (serve P env PostLogout req st).2 = st
  /\ Forall2 (fun r r' => r' = r \/ r' = <["last_login" := VNum (db_now env)]> r)
       (rows st) (rows (serve P env PostLogin req st).2)
  /\ (rows (serve P env PostRegister req st).2 = rows st
      \/ exists row, rows (serve P env PostRegister req st).2 = rows st ++ [row]).
Proof.
  cbn [serve]. repeat split.
  - unfold get_profile.
    destruct (gate_effect P (authorization req)
                (fun user st =>
                   (reply_user 200 "Profile retrieved successfully"
                      (strip_password (Some user)), st)) st)
      as [(_ & _ & _ & ->)|(u & _ & ->)]; cbn [snd]; done.
  - unfold post_logout.
    destruct (gate_effect P (authorization req)
                (fun _ st => (reply 200 true "Logged out successfully", st)) st)
      as [(_ & _ & _ & ->)|(u & _ & ->)]; cbn [snd]; done.
  - destruct (login_effect P env (body req) st) as [(_ & _ & _ & ->)|(_ & _ & id & ->)].
    + apply Forall_Forall2_diag, Forall_forall. intros r _. by left.
    + apply Forall2_map_r. intros r _. destruct (sql_eq P _ _); [by right|by left].
  - destruct (register_effect P env (body req) st)
      as [(_ & _ & _ & ->)|(_ & _ & row & ->)]; [by left|].
    right. by exists row.
Qed.

(** ** Profile updates *)

Lemma undefined_unless_password (body : Obj.t value) :
  (forall k, k ∈ Obj.keys body -> k = "password" \/ prop body k = VUndefined) ->
  forall k, k <> "password" -> prop body k = VUndefined.
Proof.
  intros Hall k Hk. destruct (Obj.get body k) as [v|] eqn:Hget.
  - destruct (Hall k (get_keys _ _ _ Hget)) as [Hpw | H]; [by destruct Hk|exact H].
  - unfold prop. by rewrite Hget.
Qed.

(** X13. An update whose body has nothing to write (it is empty, or its
    only keys are [password] and keys whose value is undefined) is answered
    400 "No valid fields to update" and changes nothing. *)
Theorem update_without_fields_rejected
    (P : Platform) (env : Env) (u : Row) (body : Obj.t value) (st : Store) :
  (forall k, k ∈ Obj.keys body -> k = "password" \/ prop body k = VUndefined) ->
  try_catch (update P env u body) reply_internal st
  = (reply 400 false "No valid fields to update", st).
Proof.
  intros Hall. pose proof (undefined_unless_password body Hall) as Hundef.
  unfold try_catch, update, validate_update.
  rewrite !(proj2 (check_passes _ _ _ _ _))
    by (left; rewrite Hundef; done).
  cbn [app]. rewrite collect_all_sent. cbn [snd].
  assert (sent_keys body = []) as ->; [|done].
  apply filter_none. intros k Hk. unfold updatable.
  destruct (Hall k Hk) as [-> | H]; [apply andb_false_r|by rewrite H].
Qed.

Lemma update_without_fields_rejected_witness :
  try_catch (update Demo.platform Demo.env Demo.alice [("password", VStr "new-password")])
    reply_internal Demo.store
  = (reply 400 false "No valid fields to update", Demo.store).
Proof.
  apply (update_without_fields_rejected Demo.platform Demo.env Demo.alice
           [("password", VStr "new-password")] Demo.store).
  intros k ->%list_elem_of_singleton. by left.
Defined.



(** The guard of the loop compares the key with ['password'] as it is
    spelled: with the key [PASSWORD] the statement names the column
    [password] and the stored digest is replaced by the text of the body. *)
Example password_in_capitals_run :
  let req := {| authorization := Some Demo.alice_header;
                body := [("PASSWORD", VStr "plain")] |} in
  let out := serve Demo.platform Demo.env PutProfile req Demo.store in
  update_query (finish_update (body req) (VNum 1) (collect_all (body req))).1
  = "UPDATE users SET PASSWORD = ?, updated_at = NOW() WHERE id = ?"
  /\ code out.1 = 200
  /\ (fun r => cell r "password") <$> rows Demo.store = [VStr "$salt$secret1"]
  /\ (fun r => cell r "password") <$> rows out.2 = [VStr "plain"].
Proof. repeat split; vm_compute; reflexivity. Qed.

(** The key [__proto__] pushes its value and creates no column. *)
Example proto_key_run :
  let body := [("__proto__", VNum 5); ("lang", VStr "fr")] in
  let stmt := finish_update body (VNum 1) (collect_all body) in
  update_query stmt.1 = "UPDATE users SET lang = ?, updated_at = NOW() WHERE id = ?"
  /\ stmt.2 = [VNum 5; VStr "fr"; VNum 1]
  /\ balanced body = false.
Proof. repeat split. Qed.

(** ** The string functions of the gate *)

Lemma split_not_nil c s : split c s <> [].
Proof.
  destruct s as [|a s]; simpl; [done|].
  destruct (Ascii.eqb a c); [done|]. by destruct (split c s).
Qed.

Lemma join_cons_char c a piece rest :
  join (char c) (String a piece :: rest) = String a (join (char c) (piece :: rest)).
Proof. by destruct rest. Qed.

(** X15. [split] on a character cuts a string into the pieces between its
    occurrences: joining the pieces with the character gives the string
    back, there is one piece more than occurrences, and no piece contains
    the character. *)
Theorem split_join (c : ascii) (s : string) :
  join (char c) (split c s) = s
  /\ length (split c s) = S (occurrences c s)
  /\ Forall (fun piece => occurrences c piece = O) (split c s).
Proof.
  induction s as [|a s (IHjoin & IHlen & IHfree)]; [by repeat constructor|].
  cbn [split occurrences]. destruct (Ascii.eqb_spec a c) as [->|Hne].
  - split; [|split].
    + destruct (split c s) as [|piece rest] eqn:Hs; [by destruct (split_not_nil c s)|].
      change (join (char c) ("" :: piece :: rest))
        with (String c (join (char c) (piece :: rest))).
      by rewrite IHjoin.
    + cbn [length]. by rewrite IHlen.
    + by constructor.
  - destruct (split c s) as [|piece rest] eqn:Hs; [by destruct (split_not_nil c s)|].
    split; [|split].
    + by rewrite join_cons_char, IHjoin.
    + exact IHlen.
    + apply Forall_cons in IHfree as [Hpiece Hrest]. constructor; [|done].
      cbn [occurrences]. destruct (Ascii.eqb_spec a c); [done|exact Hpiece].
Qed.

(** ** The gate comes first *)

Lemma gate_rejects_alike (P : Platform) authHeader next1 next2 st resp st' :
  authenticateUser P authHeader next1 st = (resp, st') ->
  (forall u s, code (next1 u s).1 = 200) ->
  code resp <> 200 ->
  authenticateUser P authHeader next2 st = (resp, st').
Proof.
  unfold authenticateUser. destruct authHeader as [h|]; [|done].
  destruct (_ || _); [done|].
  destruct (authenticate P h st) as [[r|u] st1|ex st1]; try done.
  intros Hnext Hok Hcode. specialize (Hok u st1). rewrite Hnext in Hok. done.
Qed.

(** X17. The gate is passed before anything else is looked at: when the
    credentials do not open [GET /api/profile], then [PUT /api/profile] and
    [POST /api/logout] get the very same response, whatever the body (it is
    not even validated), and logout succeeds exactly when the profile read
    does. *)
Theorem gate_comes_first
    (P : Platform) (env : Env) (authHeader : option string) (body : Obj.t value)
    (st : Store) :
  (code (get_profile P authHeader st).1 <> 200 ->
   put_profile P env authHeader body st = get_profile P authHeader st
   /\ post_logout P authHeader st = get_profile P authHeader st)
  /\ (code (post_logout P authHeader st).1 = 200
      <-> code (get_profile P authHeader st).1 = 200).
Proof.
  split.
  - intros Hcode. unfold put_profile, post_logout.
    destruct (get_profile P authHeader st) as [resp st'] eqn:Hget.
    split; apply (gate_rejects_alike P authHeader _ _ st resp st' Hget); done.
  - unfold post_logout, get_profile, authenticateUser.
    destruct authHeader as [h|]; [|done]. destruct (_ || _); [done|].
    destruct (authenticate P h st) as [[r|u] st1|ex st1]; done.
Qed.

Lemma gate_comes_first_witness :
  put_profile Demo.platform Demo.env (Some "Basic YUBiLmNvbQ==")
    [("subscription", VStr "Gold")] Demo.store
  = get_profile Demo.platform (Some "Basic YUBiLmNvbQ==") Demo.store
  /\ post_logout Demo.platform (Some "Basic YUBiLmNvbQ==") Demo.store
     = get_profile Demo.platform (Some "Basic YUBiLmNvbQ==") Demo.store.
Proof.
  apply (gate_comes_first Demo.platform Demo.env (Some "Basic YUBiLmNvbQ==")
           [("subscription", VStr "Gold")] Demo.store).
  vm_compute. discriminate.
Defined.

Lemma company_id_iff_company_witness :
  exists row,
    rows (post_register Demo.platform Demo.env (body Demo.carol_signup) Demo.store).2
    = rows Demo.store ++ [row]
    /\ (row !! "company_id" <> Some VNull
        <-> prop (body Demo.carol_signup) "type" = VStr "company").
Proof.
  apply (company_id_iff_company Demo.platform Demo.env (body Demo.carol_signup) Demo.store
           (post_register Demo.platform Demo.env (body Demo.carol_signup) Demo.store).1).
  - apply surjective_pairing.
  - vm_compute. reflexivity.
Defined.

(** ** The response of a profile update *)



